(** * A cache-aside product catalogue: the Flask handlers of [app-v2.py]

    The program is a small web service.  Four handlers work on a table
    [products] of a relational store (psycopg2) and on one key,
    ["products"], of a Redis cache:

    - [get_products]   reads the key, and on a miss reads the table,
                       fills the key for 120 seconds and answers from
                       the table;
    - [add_product], [update_product], [delete_product] change the
                       table, commit, and delete the key.

    The store, the cache, the JSON codec and the operating system are
    libraries; they are modelled by what their calls do to an explicit
    state.  The handlers are transcribed statement by statement in a
    state-and-exception monad, so that every [try]/[except] of the
    source is a [try_catch] here. *)

From Stdlib Require Import ZArith NArith List String Ascii Lia Bool.
From Stdlib Require Import DecimalN DecimalZ Sorting.Sorted Permutation.
From stdpp Require Import base option gmap strings list.

Open Scope Z_scope.

(** ** Python values *)

(** A Python [str] is a sequence of code points; the model keeps the
    code points below 256, one per [ascii], in a [string].  The text of
    a JSON document is handled character by character, as a
    [list ascii]. *)

Definition chars (s : string) : list ascii := list_ascii_of_string s.

(** ["034"] is the double quote, ["092"] the backslash. *)
Definition dquote : ascii := "034"%char.
Definition backslash : ascii := "092"%char.

(** Truth value of [x] in [if x:] for [x] a [str] or [None]. *)
Definition truthy (x : option string) : bool :=
  match x with
  | Some (String _ _) => true
  | _ => false
  end.

(** A decimal digit. *)
Inductive digit : Set := d0 | d1 | d2 | d3 | d4 | d5 | d6 | d7 | d8 | d9.

(** A Python [float], identified by the text that [repr] (and so
    [json.dumps]) writes for it: [repr] is one-to-one on floats and
    [float(repr(x))] is [x], so the text names the float.  The four
    shapes are those [repr] produces: [nan], [inf] and [-inf] (which
    [json.dumps] writes [NaN], [Infinity], [-Infinity]), fixed notation
    [-12.5], and scientific notation [1e+16], [1.5e-07]. *)
Inductive pyfloat : Set :=
| FNaN
| FInf (neg : bool)
| FFix (neg : bool) (int_part : N) (fd : digit) (fds : list digit)
| FSci (neg : bool) (int_part : N) (frac : list digit) (eneg : bool) (e : N).

(** One element of [product_list]: the dict
    [{"id": p[0], "name": p[1], "price": float(p[2])}]. *)
Record product : Set := Product { prod_id : Z; prod_name : string; prod_price : pyfloat }.

(** ** [json.dumps] on a product list *)

Definition digit_char (d : digit) : ascii :=
  match d with
  | d0 => "0" | d1 => "1" | d2 => "2" | d3 => "3" | d4 => "4"
  | d5 => "5" | d6 => "6" | d7 => "7" | d8 => "8" | d9 => "9"
  end%char.

Definition char_digit (c : ascii) : option digit :=
  match c with
  | "0" => Some d0 | "1" => Some d1 | "2" => Some d2 | "3" => Some d3
  | "4" => Some d4 | "5" => Some d5 | "6" => Some d6 | "7" => Some d7
  | "8" => Some d8 | "9" => Some d9 | _ => None
  end%char.

Fixpoint uint_digits (u : Decimal.uint) : list digit :=
  match u with
  | Decimal.Nil => []
  | Decimal.D0 u => d0 :: uint_digits u
  | Decimal.D1 u => d1 :: uint_digits u
  | Decimal.D2 u => d2 :: uint_digits u
  | Decimal.D3 u => d3 :: uint_digits u
  | Decimal.D4 u => d4 :: uint_digits u
  | Decimal.D5 u => d5 :: uint_digits u
  | Decimal.D6 u => d6 :: uint_digits u
  | Decimal.D7 u => d7 :: uint_digits u
  | Decimal.D8 u => d8 :: uint_digits u
  | Decimal.D9 u => d9 :: uint_digits u
  end.

Fixpoint digits_uint (ds : list digit) : Decimal.uint :=
  match ds with
  | [] => Decimal.Nil
  | d :: ds =>
      (match d with
       | d0 => Decimal.D0 | d1 => Decimal.D1 | d2 => Decimal.D2
       | d3 => Decimal.D3 | d4 => Decimal.D4 | d5 => Decimal.D5
       | d6 => Decimal.D6 | d7 => Decimal.D7 | d8 => Decimal.D8
       | d9 => Decimal.D9
       end) (digits_uint ds)
  end.

Definition digits_text (ds : list digit) : list ascii := map digit_char ds.

(** [repr] of a natural number and of an [int]. *)
Definition nat_repr (n : N) : list ascii := digits_text (uint_digits (N.to_uint n)).

Definition int_repr (z : Z) : list ascii :=
  match Z.to_int z with
  | Decimal.Pos u => digits_text (uint_digits u)
  | Decimal.Neg u => "-"%char :: digits_text (uint_digits u)
  end.

(** The exponent of scientific notation has at least two digits. *)
Definition exp_digits (e : N) : list digit :=
  let ds := uint_digits (N.to_uint e) in
  match ds with
  | [d] => [d0; d]
  | _ => ds
  end.

Definition sign_text (neg : bool) : list ascii := if neg then ["-"%char] else [].

Definition float_repr (f : pyfloat) : list ascii :=
  match f with
  | FNaN => chars "NaN"
  | FInf neg => sign_text neg ++ chars "Infinity"
  | FFix neg ip fd fds =>
      sign_text neg ++ nat_repr ip ++ "."%char :: digits_text (fd :: fds)
  | FSci neg ip frac eneg e =>
      sign_text neg ++ nat_repr ip
        ++ (match frac with [] => [] | _ => "."%char :: digits_text frac end)
        ++ "e"%char :: (if eneg then "-" else "+")%char :: digits_text (exp_digits e)
  end.

Definition hex_char (n : N) : ascii :=
  match n with
  | 0 => "0" | 1 => "1" | 2 => "2" | 3 => "3" | 4 => "4" | 5 => "5"
  | 6 => "6" | 7 => "7" | 8 => "8" | 9 => "9" | 10 => "a" | 11 => "b"
  | 12 => "c" | 13 => "d" | 14 => "e" | _ => "f"
  end%N%char.

(** One character of a string under [ensure_ascii=True]: the quote and
    the backslash get a backslash, the five control characters with a
    short form use it, a printable ASCII character (space to tilde)
    stands for itself, and every other code point [n] is written
    [\u00xx] in lower-case hexadecimal. *)
Definition escape_char (c : ascii) : list ascii :=
  let n := N_of_ascii c in
  if (n =? 34)%N then [backslash; dquote]
  else if (n =? 92)%N then [backslash; backslash]
  else if (n =? 10)%N then [backslash; "n"%char]
  else if (n =? 13)%N then [backslash; "r"%char]
  else if (n =? 9)%N then [backslash; "t"%char]
  else if (n =? 8)%N then [backslash; "b"%char]
  else if (n =? 12)%N then [backslash; "f"%char]
  else if ((32 <=? n) && (n <=? 126))%N then [c]
  else [backslash; "u"%char; "0"%char; "0"%char;
        hex_char (n / 16); hex_char (n mod 16)].

Fixpoint escape (s : string) : list ascii :=
  match s with
  | EmptyString => []
  | String c s => escape_char c ++ escape s
  end.

Definition str_repr (s : string) : list ascii := dquote :: escape s ++ [dquote].

(** The three keys, as they are written: ["id": ], ["name": ] and
    ["price": ] between double quotes, followed by [": "]. *)
Definition key_text (k : string) : list ascii :=
  dquote :: chars k ++ dquote :: chars ": ".

Definition product_repr (p : product) : list ascii :=
  "{"%char :: key_text "id" ++ int_repr (prod_id p)
    ++ chars ", " ++ key_text "name" ++ str_repr (prod_name p)
    ++ chars ", " ++ key_text "price" ++ float_repr (prod_price p)
    ++ ["}"%char].

Fixpoint items_repr (l : list product) : list ascii :=
  match l with
  | [] => []
  | [p] => product_repr p
  | p :: l => product_repr p ++ chars ", " ++ items_repr l
  end.

(** [json.dumps(product_list)], with the default separators. *)
Definition json_dumps (l : list product) : string :=
  string_of_list_ascii ("["%char :: items_repr l ++ ["]"%char]).

(** ** [json.loads] on such a text

    [json.loads] is modelled on the texts that [json.dumps] writes for
    a product list, the only texts this program stores: a parser reads
    the list back, and the result is accepted when writing it again
    gives the very text that was read.  What [json.loads] makes of any
    other text (another value, or an exception) is left uninterpreted,
    as [PyOther]. *)

Fixpoint expect (lit s : list ascii) : option (list ascii) :=
  match lit, s with
  | [], _ => Some s
  | c :: lit, c' :: s => if Ascii.eqb c c' then expect lit s else None
  | _ :: _, [] => None
  end.

(** The longest run of digits at the head of [s]. *)
Fixpoint p_digits (s : list ascii) : list digit * list ascii :=
  match s with
  | [] => ([], [])
  | c :: s' =>
      match char_digit c with
      | Some d => let '(ds, r) := p_digits s' in (d :: ds, r)
      | None => ([], s)
      end
  end.

Definition p_nat (s : list ascii) : N * list ascii :=
  let '(ds, r) := p_digits s in (N.of_uint (digits_uint ds), r).

Definition p_int (s : list ascii) : Z * list ascii :=
  match s with
  | "-"%char :: s' =>
      let '(ds, r) := p_digits s' in (Z.of_int (Decimal.Neg (digits_uint ds)), r)
  | _ =>
      let '(ds, r) := p_digits s in (Z.of_int (Decimal.Pos (digits_uint ds)), r)
  end.

(** The value of a hexadecimal digit, in either case. *)
Definition hex_val (c : ascii) : option N :=
  let n := N_of_ascii c in
  if ((48 <=? n) && (n <=? 57))%N then Some (n - 48)%N
  else if ((97 <=? n) && (n <=? 102))%N then Some (n - 87)%N
  else if ((65 <=? n) && (n <=? 70))%N then Some (n - 55)%N
  else None.

(** The character a two-character escape stands for. *)
Definition unescape (c : ascii) : option ascii :=
  match c with
  | "034" => Some dquote
  | "092" => Some backslash
  | "/" => Some "/"
  | "b" => Some "008"
  | "f" => Some "012"
  | "n" => Some "010"
  | "r" => Some "013"
  | "t" => Some "009"
  | _ => None
  end%char.

(** The body of a string, after its opening quote, up to and including
    the closing quote. *)
Fixpoint p_chars (s : list ascii) : option (string * list ascii) :=
  match s with
  | [] => None
  | c :: s1 =>
      if Ascii.eqb c dquote then Some (EmptyString, s1)
      else if Ascii.eqb c backslash then
        match s1 with
        | "u"%char :: h1 :: h2 :: h3 :: h4 :: s2 =>
            match hex_val h1, hex_val h2, hex_val h3, hex_val h4 with
            | Some 0%N, Some 0%N, Some a, Some b =>
                match p_chars s2 with
                | Some (n, r) => Some (String (ascii_of_N (16 * a + b)) n, r)
                | None => None
                end
            | _, _, _, _ => None
            end
        | e :: s2 =>
            match unescape e, p_chars s2 with
            | Some c', Some (n, r) => Some (String c' n, r)
            | _, _ => None
            end
        | [] => None
        end
      else
        match p_chars s1 with
        | Some (n, r) => Some (String c n, r)
        | None => None
        end
  end.

Definition p_string (s : list ascii) : option (string * list ascii) :=
  match s with
  | c :: s' => if Ascii.eqb c dquote then p_chars s' else None
  | [] => None
  end.

(** The exponent, after the [e]: a sign and digits. *)
Definition p_exp (s : list ascii) : option (bool * N * list ascii) :=
  match s with
  | "+"%char :: s' => let '(e, r) := p_nat s' in Some (false, e, r)
  | "-"%char :: s' => let '(e, r) := p_nat s' in Some (true, e, r)
  | _ => None
  end.

Definition p_sign (s : list ascii) : bool * list ascii :=
  match s with
  | "-"%char :: s' => (true, s')
  | _ => (false, s)
  end.

Definition p_float (s : list ascii) : option (pyfloat * list ascii) :=
  match expect (chars "NaN") s with
  | Some r => Some (FNaN, r)
  | None =>
      let '(neg, s1) := p_sign s in
      match expect (chars "Infinity") s1 with
      | Some r => Some (FInf neg, r)
      | None =>
          let '(ip, s2) := p_nat s1 in
          match s2 with
          | "."%char :: s3 =>
              match p_digits s3 with
              | (fd :: fds, "e"%char :: s4) =>
                  '(eneg, e, r) ← p_exp s4; Some (FSci neg ip (fd :: fds) eneg e, r)
              | (fd :: fds, r) => Some (FFix neg ip fd fds, r)
              | ([], _) => None
              end
          | "e"%char :: s4 =>
              '(eneg, e, r) ← p_exp s4; Some (FSci neg ip [] eneg e, r)
          | _ => None
          end
      end
  end.

Definition p_product (s : list ascii) : option (product * list ascii) :=
  s ← expect ("{"%char :: key_text "id") s;
  let '(i, s) := p_int s in
  s ← expect (chars ", " ++ key_text "name") s;
  '(n, s) ← p_string s;
  s ← expect (chars ", " ++ key_text "price") s;
  '(f, s) ← p_float s;
  s ← expect ["}"%char] s;
  Some (Product i n f, s).

(** The elements after the opening bracket, up to and including the
    closing one; [fuel] bounds their number. *)
Fixpoint p_items (fuel : nat) (s : list ascii) : option (list product * list ascii) :=
  match fuel with
  | O => None
  | S fuel =>
      '(p, s) ← p_product s;
      match s with
      | ","%char :: " "%char :: s' => '(l, r) ← p_items fuel s'; Some (p :: l, r)
      | "]"%char :: r => Some ([p], r)
      | _ => None
      end
  end.

Definition p_list (s : list ascii) : option (list product) :=
  match s with
  | ["["%char; "]"%char] => Some []
  | "["%char :: s' =>
      match p_items (length s') s' with
      | Some (l, []) => Some l
      | _ => None
      end
  | _ => None
  end.

(** What [json.loads] returns: a product list, or something this model
    does not look into. *)
Inductive pyvalue : Set :=
| PyProducts (l : list product)
| PyOther (t : string).

Definition json_loads (t : string) : pyvalue :=
  match p_list (chars t) with
  | Some l => if String.eqb (json_dumps l) t then PyProducts l else PyOther t
  | None => PyOther t
  end.

(** A text at whose head no digit stands. *)
Definition no_digit_ahead (r : list ascii) : Prop :=
  match r with
  | [] => True
  | c :: _ => char_digit c = None
  end.

(** ** Results and exceptions *)

(** A Python call returns a value or raises; an exception is kept as
    the text [str(e)] the handlers put into their error responses. *)
Inductive result (A : Type) : Type :=
| Ok (a : A)
| Raised (e : string).
Arguments Ok {A} a.
Arguments Raised {A} e.

(** ** The operating system, as [get_secret] sees it *)

(** A path names a file that can be read, or something that exists but
    cannot be opened for reading as text (a directory, say). *)
Inductive fsnode : Set :=
| File (contents : string)
| Unreadable.

Record os : Type := OS {
  environ : gmap string string;
  files : gmap string fsnode
}.

(** [os.getenv(key, default)]; [None] when there is no default. *)
Definition getenv (o : os) (key : string) (default : option string) : option string :=
  match environ o !! key with
  | Some v => Some v
  | None => default
  end.

(** [os.path.exists(path)]; the empty path never exists. *)
Definition path_exists (o : os) (path : string) : bool :=
  match path with
  | EmptyString => false
  | _ => bool_decide (is_Some (files o !! path))
  end.

(** [open(path, 'r')] followed by [f.read()]. *)
Definition read_file (o : os) (path : string) : result string :=
  match files o !! path with
  | Some (File c) => Ok c
  | Some Unreadable => Raised "OSError"
  | None => Raised "FileNotFoundError"
  end.

(** White space for [str.strip()], among the code points below 256:
    tab to carriage return, the four separators 28 to 31, the space,
    next-line (133) and the no-break space (160). *)
Definition is_space (c : ascii) : bool :=
  let n := N_of_ascii c in
  (((9 <=? n) && (n <=? 13)) || ((28 <=? n) && (n <=? 32))
   || (n =? 133) || (n =? 160))%N.

Fixpoint lstrip (s : string) : string :=
  match s with
  | EmptyString => EmptyString
  | String c s' => if is_space c then lstrip s' else s
  end.

Definition strip (s : string) : string :=
  String.rev (lstrip (String.rev (lstrip s))).

(** [get_secret(env_var, default)]. *)
Definition get_secret (o : os) (env_var : string) (default : option string)
  : result (option string) :=
  let file_path := getenv o (env_var +:+ "_FILE") None in
  match file_path with
  | Some path =>
      if truthy file_path && path_exists o path then
        match read_file o path with
        | Ok c => Ok (Some (strip c))
        | Raised e => Raised e
        end
      else Ok (getenv o env_var default)
  | None => Ok (getenv o env_var default)
  end.

(** The module-level configuration.  The two time-outs are kept as the
    texts read from the environment. *)
Record config : Type := Config {
  DB_HOST : option string;
  DB_NAME : option string;
  DB_USER : option string;
  DB_PASSWORD : option string;
  REDIS_HOST : option string;
  DB_CONNECT_TIMEOUT : option string;
  REDIS_CONNECT_TIMEOUT : option string
}.

Definition load_config (o : os) : result config :=
  match get_secret o "DB_NAME" (Some "ecommerce") with
  | Raised e => Raised e
  | Ok db_name =>
  match get_secret o "DB_USER" (Some "ecomuser") with
  | Raised e => Raised e
  | Ok db_user =>
  match get_secret o "DB_PASSWORD" (Some "securepassword123") with
  | Raised e => Raised e
  | Ok db_password =>
      Ok {| DB_HOST := getenv o "DB_HOST" (Some "db");
            DB_NAME := db_name;
            DB_USER := db_user;
            DB_PASSWORD := db_password;
            REDIS_HOST := getenv o "REDIS_HOST" (Some "redis");
            DB_CONNECT_TIMEOUT := getenv o "DB_CONNECT_TIMEOUT" (Some "3");
            REDIS_CONNECT_TIMEOUT := getenv o "REDIS_CONNECT_TIMEOUT" (Some "3") |}
  end end end.

(** ** The store and the cache *)

Section Model.

(** Modelled from the spec: the table [products], whose declaration is
    not part of the program.  A row has an integer [id] assigned by the
    store on creation, a text [name] and a numeric [price].  The type of
    the stored prices and the conversion [float(p[2])] of the source are
    kept abstract. *)
Context {numeric : Type}.
Variable py_float : numeric -> pyfloat.

Record row : Type := Row { row_id : Z; row_name : string; row_price : numeric }.

(** The state outside the process: the committed rows of the table, in
    no particular order, the counter the store draws new ids from, the
    keys of the cache with their values and the instants at which they
    expire, and the clock, in seconds. *)
Record world : Type := World {
  table : list row;
  next_id : Z;
  cache : gmap string (string * Z);
  now : Z
}.

(** The statements the handlers execute. *)
Inductive statement : Type :=
| SelectAll
| Insert (name : string) (price : numeric)
| Update (name : string) (price : numeric) (product_id : Z)
| Delete (product_id : Z).

(** The calls a handler makes to the two clients. *)
Inductive call : Type :=
| CacheGet (key : string)
| CacheSetex (key : string) (ttl : Z) (value : string)
| CacheDelete (key : string)
| Connect (cfg : config)
| Cursor
| Execute (q : statement)
| Fetchall
| Fetchone
| Commit
| CursorClose
| Close.

Definition is_cache_call (c : call) : bool :=
  match c with
  | CacheGet _ | CacheSetex _ _ _ | CacheDelete _ => true
  | _ => false
  end.

(** Which calls raise, and with what message: the part of a run that
    the program does not control. *)
Definition plan : Type := call -> option string.

Definition no_faults : plan := fun _ => None.

(** What a cursor holds after [execute]. *)
Inductive resultset : Type :=
| NoResult
| Rows (l : list row)
| Ids (l : list Z).

(** The state of one request: the world, the table as the open
    transaction sees it, the cursor, and the calls made so far, each
    with whether it returned ([true]) or raised ([false]). *)
Record sys : Type := Sys {
  the_world : world;
  pending : list row;
  cur_result : resultset;
  cur_rowcount : Z;
  trace : list (call * bool)
}.

Record env : Type := Env { env_config : config; env_plan : plan }.

(** *** The monad of the handlers *)

Definition M (A : Type) : Type := env -> sys -> result A * sys.

Definition ret {A} (a : A) : M A := fun _ s => (Ok a, s).

Definition bind {A B} (m : M A) (k : A -> M B) : M B :=
  fun e s =>
    match m e s with
    | (Ok a, s') => k a e s'
    | (Raised x, s') => (Raised x, s')
    end.

Definition raise {A} (x : string) : M A := fun _ s => (Raised x, s).

(** [try: body except Exception as e: handler(str(e))]. *)
Definition try_catch {A} (body : M A) (handler : string -> M A) : M A :=
  fun e s =>
    match body e s with
    | (Ok a, s') => (Ok a, s')
    | (Raised x, s') => handler x e s'
    end.

Definition get_sys : M sys := fun _ s => (Ok s, s).
Definition put_sys (s : sys) : M unit := fun _ _ => (Ok tt, s).
Definition ask_config : M config := fun e s => (Ok (env_config e), s).

Notation "x <- m ;; k" := (bind m (fun x => k))
  (at level 100, m at next level, right associativity).
Notation "m ;; k" := (bind m (fun _ => k))
  (at level 100, right associativity).

Definition set_world (f : world -> world) : M unit :=
  s <- get_sys ;;
  put_sys (Sys (f (the_world s)) (pending s) (cur_result s) (cur_rowcount s) (trace s)).

(** A call is made: it is recorded, and it raises when the plan says
    so.  A call that raises has had no effect. *)
Definition issue (c : call) : M unit :=
  fun e s =>
    let record ok :=
      Sys (the_world s) (pending s) (cur_result s) (cur_rowcount s) (trace s ++ [(c, ok)]) in
    match env_plan e c with
    | Some x => (Raised x, record false)
    | None => (Ok tt, record true)
    end.

(** *** The cache client *)

(** The value of a key at the current instant: a key is gone once its
    time is up. *)
Definition cache_lookup (w : world) (key : string) : option string :=
  match cache w !! key with
  | Some (v, expiry) => if now w <? expiry then Some v else None
  | None => None
  end.

Definition redis_get (key : string) : M (option string) :=
  issue (CacheGet key) ;;
  s <- get_sys ;;
  ret (cache_lookup (the_world s) key).

Definition redis_setex (key : string) (ttl : Z) (value : string) : M unit :=
  issue (CacheSetex key ttl value) ;;
  set_world (fun w =>
    World (table w) (next_id w) (<[key := (value, now w + ttl)]> (cache w)) (now w)).

Definition redis_delete (key : string) : M unit :=
  issue (CacheDelete key) ;;
  set_world (fun w => World (table w) (next_id w) (delete key (cache w)) (now w)).

(** *** The store client *)

(** [ORDER BY id]: insertion into a list ordered by [id]. *)
Fixpoint insert_by_id (r : row) (l : list row) : list row :=
  match l with
  | [] => [r]
  | r' :: l' => if row_id r <=? row_id r' then r :: l else r' :: insert_by_id r l'
  end.

Definition order_by_id (l : list row) : list row := foldr insert_by_id [] l.

Definition matches (product_id : Z) (r : row) : bool := row_id r =? product_id.

(** The effect of a statement inside the open transaction: the table
    as the transaction now sees it, the world (an [INSERT] draws an
    id from the counter, which is not given back), the result set and
    the row count. *)
Definition run_statement (q : statement) (s : sys) : sys :=
  let w := the_world s in
  match q with
  | SelectAll =>
      let rows := order_by_id (pending s) in
      Sys w (pending s) (Rows rows) (Z.of_nat (length rows)) (trace s)
  | Insert name price =>
      let i := next_id w in
      Sys (World (table w) (i + 1) (cache w) (now w))
          (pending s ++ [Row i name price]) (Ids [i]) 1 (trace s)
  | Update name price product_id =>
      Sys w
          (map (fun r => if matches product_id r then Row (row_id r) name price else r)
               (pending s))
          NoResult
          (Z.of_nat (length (filter (fun r => matches product_id r = true) (pending s))))
          (trace s)
  | Delete product_id =>
      Sys w
          (filter (fun r => matches product_id r = false) (pending s))
          NoResult
          (Z.of_nat (length (filter (fun r => matches product_id r = true) (pending s))))
          (trace s)
  end.

(** [get_db_connection()]: a new connection, whose transaction starts
    from the committed table. *)
Definition get_db_connection : M unit :=
  cfg <- ask_config ;;
  issue (Connect cfg) ;;
  s <- get_sys ;;
  put_sys (Sys (the_world s) (table (the_world s)) NoResult (-1) (trace s)).

Definition cursor : M unit := issue Cursor.

Definition execute (q : statement) : M unit :=
  issue (Execute q) ;;
  s <- get_sys ;;
  put_sys (run_statement q s).

Definition fetchall : M (list row) :=
  issue Fetchall ;;
  s <- get_sys ;;
  match cur_result s with
  | Rows l => ret l
  | _ => raise "no results to fetch"
  end.

(** [cur.fetchone()[0]]. *)
Definition fetchone_0 : M Z :=
  issue Fetchone ;;
  s <- get_sys ;;
  match cur_result s with
  | Ids (i :: _) => ret i
  | Rows (r :: _) => ret (row_id r)
  | Ids [] | Rows [] => raise "'NoneType' object is not subscriptable"
  | NoResult => raise "no results to fetch"
  end.

Definition rowcount : M Z :=
  s <- get_sys ;; ret (cur_rowcount s).

(** [conn.commit()]: what the transaction sees becomes the table. *)
Definition commit : M unit :=
  issue Commit ;;
  s <- get_sys ;;
  let w := the_world s in
  put_sys (Sys (World (pending s) (next_id w) (cache w) (now w))
               (pending s) (cur_result s) (cur_rowcount s) (trace s)).

Definition cur_close : M unit := issue CursorClose.
Definition conn_close : M unit := issue Close.

(** *** The responses *)

Inductive origin : Set := cache_source | database_source.

(** The JSON bodies and status codes the handlers return; the constant
    ["version"] field is left out. *)
Inductive response : Type :=
| Products (source : origin) (data : pyvalue)
| ProductAdded (product_id : Z)
| ProductUpdated (product_id : Z)
| ProductDeleted (product_id : Z)
| NotFound
| ServerError (error : string).

Definition status (r : response) : Z :=
  match r with
  | NotFound => 404
  | ServerError _ => 500
  | _ => 200
  end.

(** *** The handlers *)

(** The text held by a [str] that passed [if x:]. *)
Definition the_str (x : option string) : string :=
  match x with
  | Some t => t
  | None => EmptyString
  end.

Definition get_products : M response :=
  cached_products <- redis_get "products" ;;
  if truthy cached_products then
    ret (Products cache_source (json_loads (the_str cached_products)))
  else
    try_catch
      (get_db_connection ;;
       cursor ;;
       execute SelectAll ;;
       products <- fetchall ;;
       cur_close ;;
       conn_close ;;
       let product_list :=
         map (fun p => Product (row_id p) (row_name p) (py_float (row_price p))) products in
       redis_setex "products" 120 (json_dumps product_list) ;;
       ret (Products database_source (PyProducts product_list)))
      (fun e => ret (ServerError e)).

Definition add_product (name : string) (price : numeric) : M response :=
  try_catch
    (get_db_connection ;;
     cursor ;;
     execute (Insert name price) ;;
     product_id <- fetchone_0 ;;
     commit ;;
     cur_close ;;
     conn_close ;;
     redis_delete "products" ;;
     ret (ProductAdded product_id))
    (fun e => ret (ServerError e)).

Definition update_product (product_id : Z) (name : string) (price : numeric) : M response :=
  try_catch
    (get_db_connection ;;
     cursor ;;
     execute (Update name price product_id) ;;
     n <- rowcount ;;
     if n =? 0 then ret NotFound
     else
       commit ;;
       cur_close ;;
       conn_close ;;
       redis_delete "products" ;;
       ret (ProductUpdated product_id))
    (fun e => ret (ServerError e)).

Definition delete_product (product_id : Z) : M response :=
  try_catch
    (get_db_connection ;;
     cursor ;;
     execute (Delete product_id) ;;
     n <- rowcount ;;
     if n =? 0 then ret NotFound
     else
       commit ;;
       cur_close ;;
       conn_close ;;
       redis_delete "products" ;;
       ret (ProductDeleted product_id))
    (fun e => ret (ServerError e)).

(** *** Requests and runs *)

Inductive request : Type :=
| GetProducts
| AddProduct (name : string) (price : numeric)
| UpdateProduct (product_id : Z) (name : string) (price : numeric)
| DeleteProduct (product_id : Z).

Definition handle (r : request) : M response :=
  match r with
  | GetProducts => get_products
  | AddProduct name price => add_product name price
  | UpdateProduct product_id name price => update_product product_id name price
  | DeleteProduct product_id => delete_product product_id
  end.

(** The id an update or a delete is aimed at. *)
Definition target_id (r : request) : option Z :=
  match r with
  | UpdateProduct product_id _ _ | DeleteProduct product_id => Some product_id
  | _ => None
  end.

Definition is_mutation (r : request) : bool :=
  match r with
  | GetProducts => false
  | _ => true
  end.

(** One request served from world [w]: what the handler returned, or
    the exception that left it, the world afterwards, and the calls it
    made, in order. *)
Definition run {A} (m : M A) (cfg : config) (pl : plan) (w : world)
  : result A * world * list (call * bool) :=
  let '(r, s) := m (Env cfg pl) (Sys w [] NoResult (-1) []) in
  (r, the_world s, trace s).

Definition outcome {A} (x : result A * world * list (call * bool)) : result A := x.1.1.
Definition world_after {A} (x : result A * world * list (call * bool)) : world := x.1.2.
Definition calls {A} (x : result A * world * list (call * bool)) : list (call * bool) := x.2.

(** Time passes. *)
Definition tick (d : Z) (w : world) : world :=
  World (table w) (next_id w) (cache w) (now w + d).

(** *** What the properties speak of *)

(** The product list a read of the table [rows] gives: the rows in
    the order of [ORDER BY id], each as the dict of the source. *)
Definition select_products (rows : list row) : list product :=
  map (fun p => Product (row_id p) (row_name p) (py_float (row_price p)))
      (order_by_id rows).

(** A plan in which the cache never fails, and the store fails as in
    [pl]. *)
Definition without_cache_faults (pl : plan) : plan :=
  fun c => if is_cache_call c then None else pl c.

(** Replies with status 200 to a mutation. *)
Definition is_success (r : response) : bool :=
  match r with
  | ProductAdded _ | ProductUpdated _ | ProductDeleted _ => true
  | _ => false
  end.

Definition is_commit_ok (x : call * bool) : bool :=
  match x with
  | (Commit, true) => true
  | _ => false
  end.

Definition is_commit (x : call * bool) : bool :=
  match x with
  | (Commit, _) => true
  | _ => false
  end.

Definition is_cache_delete (x : call * bool) : bool :=
  match x with
  | (CacheDelete _, _) => true
  | _ => false
  end.

Definition is_cache_write (c : call) : bool :=
  match c with
  | CacheSetex _ _ _ | CacheDelete _ => true
  | _ => false
  end.

Definition is_fetch_id (x : call * bool) : bool :=
  match x with
  | (Fetchone, _) => true
  | _ => false
  end.

(** The calls of a mutation up to the cache delete, when each of them
    returns. *)
Definition store_script (cfg : config) (r : request) : list call :=
  match r with
  | GetProducts => []
  | AddProduct n p =>
      [Connect cfg; Cursor; Execute (Insert n p); Fetchone; Commit; CursorClose; Close]
  | UpdateProduct i n p =>
      [Connect cfg; Cursor; Execute (Update n p i); Commit; CursorClose; Close]
  | DeleteProduct i =>
      [Connect cfg; Cursor; Execute (Delete i); Commit; CursorClose; Close]
  end.

(** In the list of calls [tr], every call that satisfies [b] comes
    strictly after a call that satisfies [a]; [seen] tells whether
    such a call was met already. *)
Fixpoint preceded_from (seen : bool) (a b : call * bool -> bool)
    (tr : list (call * bool)) : bool :=
  match tr with
  | [] => true
  | x :: tr' => (negb (b x) || seen) && preceded_from (seen || a x) a b tr'
  end.

Definition always_preceded (a b : call * bool -> bool) (tr : list (call * bool)) : bool :=
  preceded_from false a b tr.



End Model.

(** A string between double quotes, for writing expected texts. *)
Definition quoted (s : string) : string :=
  String dquote (s +:+ String dquote EmptyString).

(** ** Sample data *)

(** For the samples the stored prices are the floats themselves. *)
Definition price_10 : pyfloat := FFix false 10 d0 [].
Definition price_20 : pyfloat := FFix false 20 d0 [].

Definition no_config : config := Config None None None None None None None.

(** The store of the end-to-end scenario: one product, and an empty
    cache. *)
Definition world_A : world :=
  World [Row 1 "A" price_10] 2 ∅ 0.

(** The same store with the list already cached. *)
Definition world_A_cached : world :=
  world_after (run (get_products (fun x => x)) no_config no_faults world_A).

(** Plans in which one call raises. *)
Definition setex_down : @plan pyfloat :=
  fun c => match c with CacheSetex _ _ _ => Some "Connection refused" | _ => None end.

Definition delete_down : @plan pyfloat :=
  fun c => match c with CacheDelete _ => Some "Connection refused" | _ => None end.

Definition commit_down : @plan pyfloat :=
  fun c => match c with Commit => Some "server closed the connection" | _ => None end.

(** A container in which the password comes from a mounted secret, the
    user from the environment and the database name from nowhere. *)
Definition secret_os : os :=
  OS {[ "DB_PASSWORD_FILE" := "/run/secrets/db_password";
        "DB_PASSWORD" := "unused";
        "DB_USER" := "shop" ]}
     {[ "/run/secrets/db_password" := File ("s3cret" +:+ String "010"%char EmptyString) ]}.

(** Two environments that differ in every option the program reads,
    and in a would-be option for the time to live. *)
Definition plain_os : os := OS ∅ ∅.

Definition other_os : os :=
  OS {[ "DB_HOST" := "db2"; "REDIS_HOST" := "cache2"; "DB_NAME" := "shop";
        "CACHE_TTL" := "60"; "DB_CONNECT_TIMEOUT" := "9" ]} ∅.

(** ** The health check *)

(** The calls of [health_check]: the five store calls of a round trip
    with the statement [SELECT 1;], then the ping of the cache. *)
Inductive probe : Type :=
| ProbeConnect (cfg : config)
| ProbeCursor
| ProbeSelect1
| ProbeCursorClose
| ProbeClose
| ProbePing.

(** The two replies: status ["healthy"] with code 200, or status
    ["unhealthy"] with the text of the exception and code 500. *)
Inductive health : Type :=
| healthy
| unhealthy (error : string).

Definition health_code (h : health) : Z :=
  match h with
  | healthy => 200
  | unhealthy _ => 500
  end.

(** The calls of a [try] body made one after the other: the first that
    raises ends the body.  The calls made are returned with it. *)
Fixpoint probes (pl : probe -> option string) (script : list probe)
  : result unit * list (probe * bool) :=
  match script with
  | [] => (Ok tt, [])
  | c :: rest =>
      match pl c with
      | Some e => (Raised e, [(c, false)])
      | None => let '(r, tr) := probes pl rest in (r, (c, true) :: tr)
      end
  end.

Definition health_script (cfg : config) : list probe :=
  [ProbeConnect cfg; ProbeCursor; ProbeSelect1; ProbeCursorClose; ProbeClose; ProbePing].

(** [health_check()]. *)
Definition health_check (cfg : config) (pl : probe -> option string)
  : health * list (probe * bool) :=
  match probes pl (health_script cfg) with
  | (Ok _, tr) => (healthy, tr)
  | (Raised e, tr) => (unhealthy e, tr)
  end.

Definition is_store_probe (c : probe) : bool :=
  match c with
  | ProbePing => false
  | _ => true
  end.

(** ** Runs after which the cache agrees with the table *)

Section Coherence.

Context {numeric : Type}.
Variable py_float : numeric -> pyfloat.

(** What a mutation makes of the table once it is committed: a create
    appends the row with the id the store draws, an update rewrites the
    name and the price of the rows with the id, a delete removes them. *)
Definition committed_rows (r : @request numeric) (w : @world numeric) : list row :=
  match r with
  | GetProducts => table w
  | AddProduct n p => table w ++ [Row (next_id w) n p]
  | UpdateProduct i n p =>
      map (fun x => if matches i x then Row (row_id x) n p else x) (table w)
  | DeleteProduct i => filter (fun x => matches i x = false) (table w)
  end.

(** Every call but the last. *)
Definition all_but_last_returned (tr : list (@call numeric * bool)) : Prop :=
  Forall (fun x => x.2 = true) (removelast tr).




End Coherence.

(** A probe plan in which the store is down at connection time, and
    one in which only the cache is down. *)
Definition store_down : probe -> option string :=
  fun c => match c with ProbeConnect _ => Some "could not connect to server" | _ => None end.

Definition cache_down : probe -> option string :=
  fun c => match c with ProbePing => Some "Connection refused" | _ => None end.

(** A mounted secret that cannot be read, and one that holds white
    space only. *)
Definition broken_os : os :=
  OS {[ "DB_PASSWORD_FILE" := "/run/secrets"; "DB_PASSWORD" := "fallback" ]}
     {[ "/run/secrets" := Unreadable ]}.


(** A plan in which closing the connection raises. *)
Definition close_down : @plan pyfloat :=
  fun c => match c with Close => Some "connection already closed" | _ => None end.


(** A plan in which every store call raises. *)
Definition all_store_down : @plan pyfloat :=
  fun c => if is_cache_call c then None else Some "could not connect to server".

(** * Properties *)

(** ** The JSON codec: reading back what was written *)

Lemma char_digit_char (d : digit) : char_digit (digit_char d) = Some d.
Proof. destruct d; reflexivity. Qed.

Lemma digits_uint_digits (u : Decimal.uint) : digits_uint (uint_digits u) = u.
Proof. induction u; simpl; congruence. Qed.

Lemma p_digits_app (ds : list digit) (r : list ascii) :
  no_digit_ahead r -> p_digits (digits_text ds ++ r) = (ds, r).
Proof.
  intros Hr. induction ds as [|d ds IH]; simpl.
  - destruct r as [|c r]; [reflexivity|]. simpl in Hr. simpl. rewrite Hr. reflexivity.
  - rewrite char_digit_char, IH. reflexivity.
Qed.

Lemma p_nat_app (n : N) (r : list ascii) :
  no_digit_ahead r -> p_nat (nat_repr n ++ r) = (n, r).
Proof.
  intros Hr. unfold p_nat, nat_repr. rewrite p_digits_app by assumption.
  rewrite digits_uint_digits, DecimalN.Unsigned.of_to. reflexivity.
Qed.

Lemma exp_digits_value (e : N) : N.of_uint (digits_uint (exp_digits e)) = e.
Proof.
  unfold exp_digits.
  assert (H : N.of_uint (digits_uint (uint_digits (N.to_uint e))) = e)
    by (rewrite digits_uint_digits; apply DecimalN.Unsigned.of_to).
  destruct (uint_digits (N.to_uint e)) as [|d [|d' ds]]; exact H.
Qed.

Lemma p_nat_exp (e : N) (r : list ascii) :
  no_digit_ahead r -> p_nat (digits_text (exp_digits e) ++ r) = (e, r).
Proof.
  intros Hr. unfold p_nat. rewrite p_digits_app by assumption.
  rewrite exp_digits_value. reflexivity.
Qed.

Lemma digits_text_head (ds : list digit) (c : ascii) (r : list ascii) :
  char_digit c = None ->
  exists c' r', digits_text ds ++ c :: r = c' :: r' /\
                (c' = c \/ exists d, c' = digit_char d).
Proof.
  intros Hc. destruct ds as [|d ds]; simpl; eauto 6.
Qed.

Lemma p_int_app (z : Z) (r : list ascii) :
  p_int (int_repr z ++ ","%char :: r) = (z, ","%char :: r).
Proof.
  unfold int_repr.
  pose proof (DecimalZ.of_to z) as Hz.
  destruct (Z.to_int z) as [u|u].
  - assert (Hp : p_int (digits_text (uint_digits u) ++ ","%char :: r)
               = (let '(ds, r') := p_digits (digits_text (uint_digits u) ++ ","%char :: r)
                  in (Z.of_int (Decimal.Pos (digits_uint ds)), r'))).
    { destruct (uint_digits u) as [|d ds]; [reflexivity|]. destruct d; reflexivity. }
    rewrite Hp, p_digits_app by reflexivity.
    rewrite digits_uint_digits, Hz. reflexivity.
  - rewrite <- app_comm_cons. unfold p_int. cbv beta iota.
    rewrite p_digits_app by reflexivity.
    rewrite digits_uint_digits, Hz. reflexivity.
Qed.

(** One escaped character is read back as the character. *)
Lemma p_chars_escape_char (c : ascii) (rest : list ascii) :
  p_chars (escape_char c ++ rest)
  = match p_chars rest with
    | Some (n, r) => Some (String c n, r)
    | None => None
    end.
Proof.
  destruct c as [[] [] [] [] [] [] [] []]; reflexivity.
Qed.

Lemma p_chars_escape (s : string) (r : list ascii) :
  p_chars (escape s ++ dquote :: r) = Some (s, r).
Proof.
  induction s as [|c s IH]; [reflexivity|].
  simpl escape. rewrite <- app_assoc, p_chars_escape_char, IH. reflexivity.
Qed.

Lemma p_string_app (s : string) (r : list ascii) :
  p_string (str_repr s ++ r) = Some (s, r).
Proof.
  unfold str_repr. simpl. rewrite <- app_assoc. apply p_chars_escape.
Qed.

(** Texts are compared with every append associated to the right. *)
Ltac flatten_text :=
  repeat (rewrite <- app_assoc || rewrite <- app_comm_cons || rewrite app_nil_l).

Lemma float_head (neg : bool) (ip : N) (c : ascii) (rest : list ascii) :
  c = "."%char \/ c = "e"%char ->
  expect (chars "NaN") (sign_text neg ++ nat_repr ip ++ c :: rest) = None
  /\ p_sign (sign_text neg ++ nat_repr ip ++ c :: rest) = (neg, nat_repr ip ++ c :: rest)
  /\ expect (chars "Infinity") (nat_repr ip ++ c :: rest) = None.
Proof.
  intros Hc. unfold nat_repr.
  destruct (uint_digits (N.to_uint ip)) as [|d ds];
    destruct neg; destruct Hc; subst c; try destruct d; repeat split.
Qed.

Lemma p_exp_app (eneg : bool) (e : N) (r : list ascii) :
  no_digit_ahead r ->
  p_exp ((if eneg then "-" else "+")%char :: digits_text (exp_digits e) ++ r)
  = Some (eneg, e, r).
Proof.
  intros Hr. destruct eneg; unfold p_exp; cbv beta iota;
    rewrite p_nat_exp by assumption; reflexivity.
Qed.

Lemma p_float_app (f : pyfloat) (r : list ascii) :
  p_float (float_repr f ++ "}"%char :: r) = Some (f, "}"%char :: r).
Proof.
  destruct f as [|neg|neg ip fd fds|neg ip frac eneg e].
  - reflexivity.
  - destruct neg; reflexivity.
  - unfold float_repr. flatten_text.
    destruct (float_head neg ip "." (digits_text (fd :: fds) ++ "}"%char :: r))
      as (H1 & H2 & H3); [auto|].
    unfold p_float. rewrite H1, H2, H3, p_nat_app by reflexivity.
    cbv beta iota. rewrite p_digits_app by reflexivity. reflexivity.
  - destruct frac as [|fd fds]; unfold float_repr; cbv iota; flatten_text.
    + destruct (float_head neg ip "e"
                  ((if eneg then "-" else "+")%char :: digits_text (exp_digits e) ++ "}"%char :: r))
        as (H1 & H2 & H3); [auto|].
      unfold p_float. rewrite H1, H2, H3, p_nat_app by reflexivity.
      cbv beta iota. rewrite p_exp_app by reflexivity. reflexivity.
    + destruct (float_head neg ip "."
                  (digits_text (fd :: fds) ++
                   "e"%char :: (if eneg then "-" else "+")%char
                     :: digits_text (exp_digits e) ++ "}"%char :: r))
        as (H1 & H2 & H3); [auto|].
      unfold p_float. rewrite H1, H2, H3, p_nat_app by reflexivity.
      cbv beta iota. rewrite p_digits_app by reflexivity.
      cbv beta iota. rewrite p_exp_app by reflexivity. reflexivity.
Qed.

Lemma expect_app (lit r : list ascii) : expect lit (lit ++ r) = Some r.
Proof.
  induction lit as [|c lit IH]; [reflexivity|].
  simpl. rewrite Ascii.eqb_refl. exact IH.
Qed.

Lemma expect_open_key (k : string) (t : list ascii) :
  expect ("{"%char :: key_text k) ("{"%char :: key_text k ++ t) = Some t.
Proof. exact (expect_app ("{"%char :: key_text k) t). Qed.

Lemma expect_sep_key (k : string) (t : list ascii) :
  expect (chars ", " ++ key_text k) (","%char :: " "%char :: key_text k ++ t) = Some t.
Proof. exact (expect_app (chars ", " ++ key_text k) t). Qed.

Lemma product_repr_shape (p : product) (r : list ascii) :
  product_repr p ++ r
  = "{"%char :: key_text "id" ++ int_repr (prod_id p)
      ++ ","%char :: " "%char :: key_text "name" ++ str_repr (prod_name p)
      ++ ","%char :: " "%char :: key_text "price" ++ float_repr (prod_price p)
      ++ "}"%char :: r.
Proof.
  unfold product_repr. change (chars ", ") with [","%char; " "%char].
  flatten_text. reflexivity.
Qed.

Lemma p_product_app (p : product) (r : list ascii) :
  p_product (product_repr p ++ r) = Some (p, r).
Proof.
  rewrite product_repr_shape. destruct p as [i n f]. unfold p_product.
  cbn [prod_id prod_name prod_price].
  rewrite expect_open_key. cbn [mbind option_bind].
  rewrite p_int_app, expect_sep_key. cbn [mbind option_bind].
  rewrite p_string_app. cbn [mbind option_bind].
  rewrite expect_sep_key. cbn [mbind option_bind].
  rewrite p_float_app. reflexivity.
Qed.

Lemma product_repr_head (p : product) :
  exists t, product_repr p = "{"%char :: t.
Proof. unfold product_repr. eauto. Qed.

Lemma p_items_app (l : list product) (r : list ascii) (fuel : nat) :
  l <> [] -> (length l <= fuel)%nat ->
  p_items fuel (items_repr l ++ "]"%char :: r) = Some (l, r).
Proof.
  revert fuel. induction l as [|p l IH]; [congruence|].
  intros fuel _ Hfuel. destruct fuel as [|fuel]; [simpl in Hfuel; lia|].
  destruct l as [|q l].
  - cbn [items_repr p_items]. rewrite p_product_app. reflexivity.
  - change (items_repr (p :: q :: l))
      with (product_repr p ++ chars ", " ++ items_repr (q :: l)).
    rewrite <- !app_assoc. cbn [p_items]. rewrite p_product_app.
    change (chars ", " ++ items_repr (q :: l) ++ "]"%char :: r)
      with (","%char :: " "%char :: items_repr (q :: l) ++ "]"%char :: r).
    cbn [mbind option_bind]. cbv beta iota.
    rewrite IH; [reflexivity|congruence|simpl in *; lia].
Qed.

Lemma items_repr_length (l : list product) : (length l <= length (items_repr l))%nat.
Proof.
  induction l as [|p l IH]; [reflexivity|].
  destruct (product_repr_head p) as [t Ht].
  destruct l as [|q l]; cbn [items_repr]; rewrite Ht; simpl; [lia|].
  rewrite !length_app. simpl in IH. simpl. lia.
Qed.

Lemma items_repr_shape_nonempty (p : product) (l : list product) :
  exists t, items_repr (p :: l) = "{"%char :: t.
Proof.
  destruct (product_repr_head p) as [t Ht].
  destruct l as [|q l]; cbn [items_repr]; rewrite Ht; eauto.
Qed.

Lemma p_list_dumps (l : list product) : p_list (chars (json_dumps l)) = Some l.
Proof.
  unfold json_dumps, chars. rewrite list_ascii_of_string_of_list_ascii.
  destruct l as [|p l]; [reflexivity|].
  pose proof (items_repr_length (p :: l)) as Hlen.
  assert (Hp : p_items (length (items_repr (p :: l) ++ ["]"%char]))
                 (items_repr (p :: l) ++ ["]"%char]) = Some (p :: l, [])).
  { apply p_items_app; [congruence|]. rewrite length_app. lia. }
  destruct (items_repr_shape_nonempty p l) as (t & Ht).
  rewrite Ht in Hp |- *. rewrite <- app_comm_cons in Hp |- *.
  unfold p_list. cbv beta iota. rewrite Hp. reflexivity.
Qed.

(** [json.loads(json.dumps(l))] is [l], for every product list. *)
Lemma json_loads_dumps (l : list product) : json_loads (json_dumps l) = PyProducts l.
Proof.
  unfold json_loads. rewrite p_list_dumps, String.eqb_refl. reflexivity.
Qed.


(** The text written for two products, and a list with a backslash, a
    quote, a code point above 127, a negative id and a [nan] read back
    from its text. *)
Example json_dumps_sample :
  json_dumps [Product 1 "A" (FFix false 10 d0 []); Product 2 "B" (FSci true 1 [d5] true 7)]
  = "[{" +:+ quoted "id" +:+ ": 1, " +:+ quoted "name" +:+ ": " +:+ quoted "A" +:+ ", "
      +:+ quoted "price" +:+ ": 10.0}, {" +:+ quoted "id" +:+ ": 2, " +:+ quoted "name"
      +:+ ": " +:+ quoted "B" +:+ ", " +:+ quoted "price" +:+ ": -1.5e-07}]".
Proof. vm_compute. reflexivity. Qed.

Example json_loads_sample :
  json_loads
    (json_dumps [Product 1 (String backslash "A") price_10;
                 Product (-2) (String "200" (String dquote "B")) (FSci true 1 [d5] true 7);
                 Product 0 EmptyString FNaN])
  = PyProducts [Product 1 (String backslash "A") price_10;
                Product (-2) (String "200" (String dquote "B")) (FSci true 1 [d5] true 7);
                Product 0 EmptyString FNaN].
Proof. vm_compute. reflexivity. Qed.

(** A text that no product list is written as is not looked into. *)
Example json_loads_other : json_loads "[1, 2]" = PyOther "[1, 2]".
Proof. vm_compute. reflexivity. Qed.

(** ** Secrets *)

Lemma path_exists_truthy (o : os) (path : string) :
  path_exists o path = true -> truthy (Some path) = true.
Proof. destruct path; [discriminate|reflexivity]. Qed.

Lemma get_secret_from_file (o : os) (env_var path c : string) (default : option string) :
  environ o !! (env_var +:+ "_FILE") = Some path ->
  path_exists o path = true ->
  files o !! path = Some (File c) ->
  get_secret o env_var default = Ok (Some (strip c)).
Proof.
  intros Hvar Hex Hfile. unfold get_secret, getenv, read_file.
  rewrite Hvar, (path_exists_truthy o path Hex), Hex, Hfile. reflexivity.
Qed.

Lemma get_secret_from_env (o : os) (env_var : string) (default : option string) :
  (environ o !! (env_var +:+ "_FILE") = None
   \/ exists path, environ o !! (env_var +:+ "_FILE") = Some path
                   /\ path_exists o path = false) ->
  get_secret o env_var default = Ok (getenv o env_var default).
Proof.
  intros [Hvar|(path & Hvar & Hex)]; unfold get_secret; unfold getenv at 1;
    rewrite Hvar; [reflexivity|].
  rewrite Hex, andb_false_r. reflexivity.
Qed.

Lemma load_config_secrets (o : os) (cfg : config) :
  load_config o = Ok cfg ->
  get_secret o "DB_NAME" (Some "ecommerce") = Ok (DB_NAME cfg)
  /\ get_secret o "DB_USER" (Some "ecomuser") = Ok (DB_USER cfg)
  /\ get_secret o "DB_PASSWORD" (Some "securepassword123") = Ok (DB_PASSWORD cfg).
Proof.
  unfold load_config.
  destruct (get_secret o "DB_NAME" _) as [a|]; [|discriminate].
  destruct (get_secret o "DB_USER" _) as [b|]; [|discriminate].
  destruct (get_secret o "DB_PASSWORD" _) as [c|]; [|discriminate].
  intros [= <-]. auto.
Qed.

(** ** More on secrets: what [strip] leaves, and files that cannot be read *)

Lemma chars_append (s t : string) : chars (s +:+ t) = chars s ++ chars t.
Proof.
  unfold chars. induction s as [|c s IH]; [reflexivity|].
  change (String c s +:+ t) with (String c (s +:+ t)).
  cbn [list_ascii_of_string app]. rewrite IH. reflexivity.
Qed.






(** X18 (secrets): a path that exists but cannot be read makes
    [get_secret] raise: there is no fall back to the plain variable or
    to the default, and the configuration is then not loaded when the
    option is one of the three secrets. *)
Theorem secret_unreadable_raises (o : os) (env_var path : string)
    (default : option string) :
  environ o !! (env_var +:+ "_FILE") = Some path ->
  path_exists o path = true ->
  files o !! path = Some Unreadable ->
  (exists e, get_secret o env_var default = Raised e)
  /\ (env_var = "DB_NAME" \/ env_var = "DB_USER" \/ env_var = "DB_PASSWORD" ->
      exists e, load_config o = Raised e).
Proof.
  intros Hvar Hex Hfile.
  assert (Hraise : forall d, get_secret o env_var d = Raised "OSError").
  { intros d. unfold get_secret, getenv, read_file.
    rewrite Hvar, (path_exists_truthy o path Hex), Hex, Hfile. reflexivity. }
  split; [eauto|].
  intros [->|[->| ->]]; unfold load_config.
  - rewrite Hraise. eauto.
  - destruct (get_secret o "DB_NAME" _); [rewrite Hraise|]; eauto.
  - destruct (get_secret o "DB_NAME" _); [|eauto].
    destruct (get_secret o "DB_USER" _); [rewrite Hraise|]; eauto.
Qed.



(** ** The health check *)

Lemma probes_all_return (pl : probe -> option string) (script : list probe) :
  (forall c, In c script -> pl c = None) ->
  probes pl script = (Ok tt, map (fun c => (c, true)) script).
Proof.
  induction script as [|c script IH]; intros Hpl; [reflexivity|].
  cbn [probes map]. rewrite (Hpl c) by (simpl; auto).
  rewrite IH by (intros x Hx; apply Hpl; simpl; auto). reflexivity.
Qed.

Lemma probes_first_failure (pl : probe -> option string) (pre post : list probe)
    (c : probe) (e : string) :
  (forall x, In x pre -> pl x = None) ->
  pl c = Some e ->
  probes pl (pre ++ c :: post) = (Raised e, map (fun x => (x, true)) pre ++ [(c, false)]).
Proof.
  intros Hpre Hc. induction pre as [|x pre IH]; cbn [probes map app].
  - rewrite Hc. reflexivity.
  - rewrite (Hpre x) by (simpl; auto).
    rewrite IH by (intros y Hy; apply Hpre; simpl; auto). reflexivity.
Qed.

Lemma probes_ok_all_return (pl : probe -> option string) (script : list probe)
    (tr : list (probe * bool)) :
  probes pl script = (Ok tt, tr) -> forall c, In c script -> pl c = None.
Proof.
  revert tr. induction script as [|x script IH]; intros tr H c Hc; [destruct Hc|].
  cbn [probes] in H. destruct (pl x) as [e|] eqn:Hx; [discriminate|].
  destruct (probes pl script) as [[[]|e] tr'] eqn:Hrest; [|discriminate].
  destruct Hc as [<-|Hc]; [exact Hx|]. apply (IH tr' eq_refl c Hc).
Qed.

(** X15 (health): the reply is healthy exactly when each of the six
    calls returns, and then all six have been made, the ping last. *)
Theorem health_check_healthy_iff (cfg : config) (pl : probe -> option string) :
  ((health_check cfg pl).1 = healthy <-> forall c, In c (health_script cfg) -> pl c = None)
  /\ ((health_check cfg pl).1 = healthy ->
      (health_check cfg pl).2 = map (fun c => (c, true)) (health_script cfg)).
Proof.
  unfold health_check.
  destruct (probes pl (health_script cfg)) as [[[]|e] tr] eqn:Hrun.
  - split; [split|]; intros _.
    + apply (probes_ok_all_return pl _ tr Hrun).
    + reflexivity.
    + cbn [snd]. pose proof (probes_ok_all_return pl _ tr Hrun) as Hall.
      rewrite (probes_all_return pl _ Hall) in Hrun. congruence.
  - split; [split|]; [discriminate| |discriminate].
    intros Hall. rewrite (probes_all_return pl _ Hall) in Hrun. discriminate.
Qed.

(** X16 (health): the first call that raises decides the reply: it is
    unhealthy with the message of that call, the code is 500, and no
    later call is made.  So when a store call raises the cache is not
    pinged. *)
Theorem health_check_first_failure (cfg : config) (pl : probe -> option string)
    (pre post : list probe) (c : probe) (e : string) :
  health_script cfg = pre ++ c :: post ->
  (forall x, In x pre -> pl x = None) ->
  pl c = Some e ->
  health_check cfg pl = (unhealthy e, map (fun x => (x, true)) pre ++ [(c, false)])
  /\ health_code (health_check cfg pl).1 = 500
  /\ (is_store_probe c = true ->
      forall ok, ~ In (ProbePing, ok) (health_check cfg pl).2).
Proof.
  intros Hscript Hpre Hc. unfold health_check.
  rewrite Hscript, (probes_first_failure pl pre post c e Hpre Hc). cbn [fst snd].
  split; [reflexivity|]. split; [reflexivity|].
  intros Hstore ok. clear Hpre Hc. unfold health_script in Hscript.
  destruct pre as [|p1 [|p2 [|p3 [|p4 [|p5 [|p6 pre]]]]]];
    cbn [app] in Hscript; simplify_eq; cbn [map app];
    try discriminate Hstore;
    try (destruct pre; discriminate);
    intros Hin; repeat (destruct Hin as [Hin|Hin]; [discriminate Hin|]); destruct Hin.
Qed.

(** ** The handlers *)

Section Handlers.

Context {numeric : Type} (py_float : numeric -> pyfloat).
Implicit Types (w : @world numeric) (pl : @plan numeric) (cfg : config).
Implicit Types (r : @request numeric).

(** A run is computed by unfolding the monad; what is left is a
    cascade of questions to the plan, one per call. *)
Ltac step_run :=
  repeat progress
    (cbv beta iota zeta delta
       [run outcome world_after calls handle tick
        get_products add_product update_product delete_product
        try_catch bind ret raise issue get_sys put_sys ask_config set_world
        redis_get redis_setex redis_delete
        get_db_connection cursor execute fetchall fetchone_0 rowcount commit
        cur_close conn_close run_statement without_cache_faults is_cache_call
        the_world pending cur_result cur_rowcount trace env_config env_plan
        fst snd];
     cbn [table next_id cache now app]).

Ltac ask_plan :=
  match goal with
  | |- context [match ?pl ?c with Some _ => _ | None => _ end] =>
      let e := fresh "e" in
      let H := fresh "Hpl" in
      destruct (pl c) as [e|] eqn:H; step_run
  end.

Ltac ask_rowcount :=
  match goal with
  | |- context [if ?n =? 0 then _ else _] =>
      let H := fresh "Hrows" in
      destruct (n =? 0) eqn:H; step_run
  end.

Ltac ask_cache :=
  match goal with
  | |- context [truthy (cache_lookup ?w ?k)] =>
      let H := fresh "Hkey" in
      destruct (truthy (cache_lookup w k)) eqn:H; step_run
  end.

Ltac exec := step_run; repeat (ask_plan || ask_rowcount || ask_cache).

(** Membership in an explicit list of calls. *)
Ltac split_in :=
  repeat match goal with
         | H : In _ (_ :: _) |- _ => destruct H as [H|H]
         | H : In _ [] |- _ => destruct H
         end;
  simplify_eq.

(** *** Mutations: the key is deleted before success is returned *)

Lemma mutation_success_deletes_key cfg pl w r resp :
  is_mutation r = true ->
  outcome (run (handle py_float r) cfg pl w) = Ok resp ->
  is_success resp = true ->
  cache (world_after (run (handle py_float r) cfg pl w)) !! "products" = None
  /\ In (CacheDelete "products", true) (calls (run (handle py_float r) cfg pl w)).
Proof.
  destruct r as [|n p|i n p|i]; [discriminate| | |]; intros _;
    exec; intros [= <-]; try discriminate; intros _;
    (split; [apply lookup_delete_eq | simpl; tauto]).
Qed.

(** *** Reads *)

Lemma cache_lookup_tick w d key :
  cache w !! key = None -> cache_lookup (tick d w) key = None.
Proof. unfold cache_lookup, tick. cbn [cache]. intros ->. reflexivity. Qed.

Lemma truthy_dumps (l : list product) : truthy (Some (json_dumps l)) = true.
Proof. reflexivity. Qed.

(** A miss with every call returning: the answer comes from the table,
    and the key is filled for 120 seconds. *)
Lemma get_products_miss cfg pl w :
  truthy (cache_lookup w "products") = false ->
  (forall c, pl c = None) ->
  run (get_products py_float) cfg pl w
  = (Ok (Products database_source (PyProducts (select_products py_float (table w)))),
     World (table w) (next_id w)
           (<["products" := (json_dumps (select_products py_float (table w)), now w + 120)]>
              (cache w))
           (now w),
     [(CacheGet "products", true); (Connect cfg, true); (Cursor, true);
      (Execute SelectAll, true); (Fetchall, true); (CursorClose, true); (Close, true);
      (CacheSetex "products" 120 (json_dumps (select_products py_float (table w))), true)]).
Proof.
  intros Hmiss Hpl. step_run. rewrite Hpl. step_run. rewrite Hmiss. step_run.
  rewrite !Hpl. step_run. reflexivity.
Qed.

(** A hit: the answer is what the key holds, no store call is made and
    nothing changes. *)
Lemma get_products_hit cfg pl w :
  truthy (cache_lookup w "products") = true ->
  pl (CacheGet "products") = None ->
  run (get_products py_float) cfg pl w
  = (Ok (Products cache_source (json_loads (the_str (cache_lookup w "products")))),
     w, [(CacheGet "products", true)]).
Proof.
  intros Hhit Hpl. step_run. rewrite Hpl. step_run. rewrite Hhit. reflexivity.
Qed.

(** After a miss, a list that is returned was read from the table. *)
Lemma get_products_miss_source cfg pl w source data :
  truthy (cache_lookup w "products") = false ->
  outcome (run (get_products py_float) cfg pl w) = Ok (Products source data) ->
  source = database_source /\ data = PyProducts (select_products py_float (table w)).
Proof.
  intros Hmiss. step_run. ask_plan; [discriminate|]. rewrite Hmiss.
  repeat ask_plan; intros [= <- <-]; split; reflexivity.
Qed.

(** *** Mutations: order of the calls *)

Lemma preceded_from_spec (a b : @call numeric * bool -> bool) tr seen :
  preceded_from seen a b tr = true <->
  forall i x, tr !! i = Some x -> b x = true ->
    seen = true \/ exists j y, (j < i)%nat /\ tr !! j = Some y /\ a y = true.
Proof.
  revert seen. induction tr as [|x0 tr IH]; intros seen; cbn [preceded_from].
  - split; [intros _ i x Hi; discriminate Hi | reflexivity].
  - rewrite andb_true_iff, orb_true_iff, negb_true_iff, IH. split.
    + intros [Hx Htr] [|i] x Hi Hb; cbn in Hi.
      * injection Hi as ->. destruct Hx as [Hx|Hx]; [congruence|auto].
      * destruct (Htr i x Hi Hb) as [Hs|(j & y & Hj & Hy & Ha)].
        -- apply orb_true_iff in Hs as [Hs|Hs]; [auto|].
           right. exists 0%nat, x0. repeat split; [lia|assumption].
        -- right. exists (S j), y. repeat split; [lia|assumption..].
    + intros H. split.
      * destruct (b x0) eqn:Hb; [|auto]. right.
        destruct (H 0%nat x0 eq_refl Hb) as [Hs|(j & y & Hj & _)]; [assumption|lia].
      * intros i x Hi Hb.
        destruct (H (S i) x Hi Hb) as [Hs|(j & y & Hj & Hy & Ha)].
        -- left. rewrite Hs. reflexivity.
        -- destruct j as [|j]; cbn in Hy.
           ++ injection Hy as ->. left. rewrite Ha. apply orb_true_r.
           ++ right. exists j, y. repeat split; [lia|assumption..].
Qed.

(** [always_preceded a b tr] says what its name says. *)
Lemma always_preceded_spec (a b : @call numeric * bool -> bool) tr :
  always_preceded a b tr = true <->
  forall i x, tr !! i = Some x -> b x = true ->
    exists j y, (j < i)%nat /\ tr !! j = Some y /\ a y = true.
Proof.
  unfold always_preceded. rewrite preceded_from_spec. split; intros H i x Hi Hb.
  - destruct (H i x Hi Hb) as [?|?]; [discriminate|assumption].
  - right. eauto.
Qed.

Lemma commit_precedes_delete cfg pl w r :
  always_preceded is_commit_ok is_cache_delete (calls (run (handle py_float r) cfg pl w)) = true.
Proof.
  destruct r as [|n p|i n p|i]; exec; reflexivity.
Qed.

Lemma delete_only_after_all cfg pl w r x :
  is_mutation r = true ->
  is_cache_delete x = true ->
  In x (calls (run (handle py_float r) cfg pl w)) ->
  exists ok,
    x = (CacheDelete "products", ok)
    /\ calls (run (handle py_float r) cfg pl w)
       = map (fun c => (c, true)) (store_script cfg r) ++ [x].
Proof.
  destruct r as [|n p|i n p|i]; [discriminate| | |]; intros _ Hx;
    exec; intros Hin; split_in; try discriminate Hx; eauto.
Qed.

Lemma store_failure_no_delete cfg pl w r c :
  is_mutation r = true ->
  is_cache_call c = false ->
  In (c, false) (calls (run (handle py_float r) cfg pl w)) ->
  (exists e, pl c = Some e
             /\ outcome (run (handle py_float r) cfg pl w) = Ok (ServerError e))
  /\ cache (world_after (run (handle py_float r) cfg pl w)) = cache w
  /\ forall x, is_cache_delete x = true ->
               ~ In x (calls (run (handle py_float r) cfg pl w)).
Proof.
  destruct r as [|n p|i n p|i]; [discriminate| | |]; intros _ Hc;
    exec; intros Hin; split_in; try discriminate Hc;
    (split; [eexists; split; [eassumption|reflexivity]|split; [reflexivity|]]);
    intros x Hx Hin'; split_in; discriminate Hx.
Qed.

(** *** Update and delete of an id that is not in the table *)

Lemma no_row_matches (i : Z) (rows : list (@row numeric)) :
  (forall x, In x rows -> row_id x <> i) ->
  filter (fun y : row => matches i y = true) rows = [].
Proof.
  induction rows as [|x rows IH]; intros Hno; [reflexivity|].
  rewrite filter_cons. destruct (decide (matches i x = true)) as [Hm|_].
  - unfold matches in Hm. apply Z.eqb_eq in Hm. destruct (Hno x); simpl; auto.
  - apply IH. intros y Hy. apply Hno. simpl. auto.
Qed.

Lemma not_found_run cfg pl w r i :
  (forall x, In x (table w) -> row_id x <> i) ->
  target_id r = Some i ->
  world_after (run (handle py_float r) cfg pl w) = w
  /\ (forall x, is_cache_delete x = true ->
                ~ In x (calls (run (handle py_float r) cfg pl w)))
  /\ (outcome (run (handle py_float r) cfg pl w) = Ok NotFound
      \/ exists e, outcome (run (handle py_float r) cfg pl w) = Ok (ServerError e))
  /\ ((forall c, In c (firstn 3 (store_script cfg r)) -> pl c = None) ->
      outcome (run (handle py_float r) cfg pl w) = Ok NotFound).
Proof.
  intros Hno%no_row_matches Hr.
  destruct r as [|n p|j n p|j]; try discriminate Hr; injection Hr as ->;
    step_run; repeat ask_plan; rewrite ?Hno;
    change (Z.of_nat (@length (@row numeric) []) =? 0) with true; step_run;
    (split; [reflexivity|split; [|split]]);
    try (intros x Hx Hin; split_in; discriminate Hx);
    eauto;
    intros Hpl'; cbn [store_script firstn] in Hpl';
    match goal with
    | H : pl ?c = Some _ |- _ => rewrite (Hpl' c) in H by (simpl; tauto); discriminate H
    end.
Qed.

(** *** [ORDER BY id] *)




Lemma insert_by_id_perm (x : @row numeric) (l : list row) :
  Permutation (insert_by_id x l) (x :: l).
Proof.
  induction l as [|y l IH]; cbn [insert_by_id]; [reflexivity|].
  destruct (row_id x <=? row_id y); [reflexivity|].
  rewrite IH. apply perm_swap.
Qed.

(** The ordered read returns the rows of the table, all of them and
    nothing else. *)
Lemma order_by_id_perm (l : list (@row numeric)) : Permutation (order_by_id l) l.
Proof.
  induction l as [|x l IH]; [reflexivity|].
  cbn [order_by_id foldr]. rewrite insert_by_id_perm. constructor. exact IH.
Qed.



(** *** What the key holds *)






(** *** When the cache fails *)

(** What a run does to the table does not depend on the cache. *)
Lemma cache_faults_spare_store cfg pl w r :
  table (world_after (run (handle py_float r) cfg pl w))
  = table (world_after (run (handle py_float r) cfg (without_cache_faults pl) w))
  /\ next_id (world_after (run (handle py_float r) cfg pl w))
     = next_id (world_after (run (handle py_float r) cfg (without_cache_faults pl) w)).
Proof.
  destruct r as [|n p|i n p|i]; exec; split; reflexivity.
Qed.

Lemma no_cache_fault_same_run cfg pl w r :
  (forall c, is_cache_call c = true ->
             ~ In (c, false) (calls (run (handle py_float r) cfg pl w))) ->
  run (handle py_float r) cfg pl w
  = run (handle py_float r) cfg (without_cache_faults pl) w.
Proof.
  destruct r as [|n p|i n p|i]; exec; intros Hno; try reflexivity;
    match goal with
    | H : pl ?c = Some _ |- _ =>
        lazymatch c with
        | CacheGet _ => idtac | CacheSetex _ _ _ => idtac | CacheDelete _ => idtac
        end;
        destruct (Hno c eq_refl); simpl; tauto
    end.
Qed.

Lemma cache_write_fault_is_error cfg pl w r c :
  is_cache_write c = true ->
  In (c, false) (calls (run (handle py_float r) cfg pl w)) ->
  exists e, pl c = Some e
    /\ outcome (run (handle py_float r) cfg pl w) = Ok (ServerError e)
    /\ cache (world_after (run (handle py_float r) cfg pl w)) = cache w.
Proof.
  destruct r as [|n p|i n p|i]; intros Hc; exec; intros Hin; split_in;
    try discriminate Hc; eauto.
Qed.

(** The cache get stands before the [try]: when it raises, the
    exception leaves the handler and the store is not asked. *)
Lemma cache_get_fault_escapes cfg pl w e :
  pl (CacheGet "products") = Some e ->
  run (get_products py_float) cfg pl w = (Raised e, w, [(CacheGet "products", false)]).
Proof. intros Hpl. step_run. rewrite Hpl. reflexivity. Qed.

(** *** The time to live *)

Lemma setex_is_120 cfg pl w r key ttl v ok :
  In (CacheSetex key ttl v, ok) (calls (run (handle py_float r) cfg pl w)) ->
  key = "products" /\ ttl = 120.
Proof.
  destruct r as [|n p|i n p|i]; exec; intros Hin; split_in; auto.
Qed.

Lemma cache_lookup_after_setex w key v ttl d :
  cache_lookup
    (tick d (World (table w) (next_id w) (<[key := (v, now w + ttl)]> (cache w)) (now w)))
    key
  = if d <? ttl then Some v else None.
Proof.
  unfold cache_lookup, tick. cbn [cache now]. rewrite lookup_insert_eq.
  destruct (d <? ttl) eqn:Hd.
  - apply Z.ltb_lt in Hd. destruct (now w + d <? now w + ttl) eqn:H; [reflexivity|].
    apply Z.ltb_ge in H. lia.
  - apply Z.ltb_ge in Hd. destruct (now w + d <? now w + ttl) eqn:H; [|reflexivity].
    apply Z.ltb_lt in H. lia.
Qed.

(** *** The new id *)

Lemma fetch_precedes_commit cfg pl w n p :
  always_preceded is_fetch_id is_commit (calls (run (add_product n p) cfg pl w)) = true.
Proof. exec; reflexivity. Qed.

Lemma add_product_returns_committed cfg pl w n p i :
  outcome (run (add_product n p) cfg pl w) = Ok (ProductAdded i) ->
  i = next_id w
  /\ In (Commit, true) (calls (run (add_product n p) cfg pl w))
  /\ table (world_after (run (add_product n p) cfg pl w)) = table w ++ [Row i n p].
Proof.
  clear py_float. exec; intros [= <-]. repeat split. simpl. tauto.
Qed.

Lemma add_product_not_committed cfg pl w n p :
  ~ In (Commit, true) (calls (run (add_product n p) cfg pl w)) ->
  (exists e, outcome (run (add_product n p) cfg pl w) = Ok (ServerError e))
  /\ table (world_after (run (add_product n p) cfg pl w)) = table w.
Proof.
  clear py_float. exec; intros Hno; try (destruct Hno; simpl; tauto); eauto.
Qed.

(** *** The claims about the handlers *)

(** C1 (invalidation on write).  When a create, an update or a delete
    returns success, the cache delete of the key ["products"] has been
    made and has returned, and the key is absent from the cache.  The
    very next read, however much time has passed, never answers from
    the cache; when its calls return it answers from the store, with
    the table as the mutation left it. *)
Theorem invalidation_on_write cfg pl w r resp :
  is_mutation r = true ->
  outcome (run (handle py_float r) cfg pl w) = Ok resp ->
  is_success resp = true ->
  In (CacheDelete "products", true) (calls (run (handle py_float r) cfg pl w))
  /\ cache (world_after (run (handle py_float r) cfg pl w)) !! "products" = None
  /\ forall d pl',
       (forall source data,
          outcome (run (get_products py_float) cfg pl'
                       (tick d (world_after (run (handle py_float r) cfg pl w))))
          = Ok (Products source data) ->
          source = database_source)
       /\ ((forall c, pl' c = None) ->
           outcome (run (get_products py_float) cfg pl'
                        (tick d (world_after (run (handle py_float r) cfg pl w))))
           = Ok (Products database_source
                   (PyProducts
                      (select_products py_float
                         (table (world_after (run (handle py_float r) cfg pl w))))))).
Proof.
  intros Hr Hout Hok.
  destruct (mutation_success_deletes_key cfg pl w r resp Hr Hout Hok) as [Hkey Hdel].
  split; [exact Hdel|]. split; [exact Hkey|].
  intros d pl'.
  assert (Hmiss : truthy (cache_lookup
                            (tick d (world_after (run (handle py_float r) cfg pl w)))
                            "products") = false)
    by (rewrite cache_lookup_tick by exact Hkey; reflexivity).
  split.
  - intros source data Hread.
    apply (get_products_miss_source cfg pl' _ source data Hmiss Hread).
  - intros Hpl'. rewrite (get_products_miss cfg pl' _ Hmiss Hpl'). reflexivity.
Qed.

(** C2 (commit, then invalidation).  In the calls of a mutation, a
    cache delete comes strictly after a commit that has returned; when
    a cache delete is made, it is the last call, it is the delete of
    ["products"], and every call before it, the commit among them, has
    returned. *)
Theorem commit_before_invalidation cfg pl w r :
  is_mutation r = true ->
  always_preceded is_commit_ok is_cache_delete
    (calls (run (handle py_float r) cfg pl w)) = true
  /\ forall x, is_cache_delete x = true ->
       In x (calls (run (handle py_float r) cfg pl w)) ->
       In Commit (store_script cfg r)
       /\ exists ok,
            x = (CacheDelete "products", ok)
            /\ calls (run (handle py_float r) cfg pl w)
               = map (fun c => (c, true)) (store_script cfg r) ++ [x].
Proof.
  intros Hr. split; [apply commit_precedes_delete|].
  intros x Hx Hin. split.
  - destruct r; [discriminate Hr|simpl; tauto..].
  - apply delete_only_after_all; assumption.
Qed.

(** C4 (not found does not invalidate).  An update or a delete aimed
    at an id that no row of the table has changes nothing at all, makes
    no cache delete, and answers not-found as soon as the connection,
    the cursor and the statement raise nothing (and an error
    otherwise).  A read that would have been answered from the cache
    before is answered from the cache after, with the same text. *)
Theorem not_found_does_not_invalidate cfg pl w r i :
  target_id r = Some i ->
  (forall x, In x (table w) -> row_id x <> i) ->
  world_after (run (handle py_float r) cfg pl w) = w
  /\ (forall x, is_cache_delete x = true ->
                ~ In x (calls (run (handle py_float r) cfg pl w)))
  /\ (outcome (run (handle py_float r) cfg pl w) = Ok NotFound
      \/ exists e, outcome (run (handle py_float r) cfg pl w) = Ok (ServerError e))
  /\ ((forall c, In c (firstn 3 (store_script cfg r)) -> pl c = None) ->
      outcome (run (handle py_float r) cfg pl w) = Ok NotFound)
  /\ forall pl',
       truthy (cache_lookup w "products") = true ->
       pl' (CacheGet "products") = None ->
       outcome (run (get_products py_float) cfg pl'
                    (world_after (run (handle py_float r) cfg pl w)))
       = Ok (Products cache_source (json_loads (the_str (cache_lookup w "products")))).
Proof.
  intros Hr Hno.
  destruct (not_found_run cfg pl w r i Hno Hr) as (Hw & Hdel & Hout & Hnf).
  repeat split; try assumption.
  intros pl' Hhit Hpl'. rewrite Hw, (get_products_hit cfg pl' w Hhit Hpl'). reflexivity.
Qed.

(** C5 (cache population on miss).  From a cache in which the key is
    not set (an empty cache, for one), a first read whose calls return
    answers from the store with the rows of the table in order of id,
    (every row, once), and sets the key to the text of that list.  A second read less than
    120 seconds later answers from the cache, makes no store call, and
    returns the very same list: the list read back from its text. *)
Theorem cache_population_on_miss cfg pl1 pl2 w d :
  truthy (cache_lookup w "products") = false ->
  (forall c, pl1 c = None) ->
  pl2 (CacheGet "products") = None ->
  0 <= d < 120 ->
  outcome (run (get_products py_float) cfg pl1 w)
  = Ok (Products database_source (PyProducts (select_products py_float (table w))))
  /\ Permutation
       (map (fun p => Product (row_id p) (row_name p) (py_float (row_price p))) (table w))
       (select_products py_float (table w))
  /\ cache (world_after (run (get_products py_float) cfg pl1 w)) !! "products"
     = Some (json_dumps (select_products py_float (table w)), now w + 120)
  /\ run (get_products py_float) cfg pl2
         (tick d (world_after (run (get_products py_float) cfg pl1 w)))
     = (Ok (Products cache_source (PyProducts (select_products py_float (table w)))),
        tick d (world_after (run (get_products py_float) cfg pl1 w)),
        [(CacheGet "products", true)]).
Proof.
  intros Hmiss Hpl1 Hpl2 Hd.
  rewrite (get_products_miss cfg pl1 w Hmiss Hpl1). cbn [outcome world_after fst snd].
  split; [reflexivity|]. split.
  { symmetry. apply Permutation_map, order_by_id_perm. }
  split; [cbn [cache]; apply lookup_insert_eq|].
  pose proof (cache_lookup_after_setex w "products"
                (json_dumps (select_products py_float (table w))) 120 d) as Hlook.
  destruct (d <? 120) eqn:Hlt; [|apply Z.ltb_ge in Hlt; lia].
  rewrite get_products_hit; [rewrite Hlook|rewrite Hlook; reflexivity|exact Hpl2].
  cbn [the_str]. rewrite json_loads_dumps. reflexivity.
Qed.


(** C7, amended (time to live).  On a miss whose calls return, the
    list is written under the key with a time to live of 120 seconds:
    the key answers for 120 seconds and no longer.  The 120 is the same
    under every configuration and in every run. *)
Theorem ttl_is_120 cfg pl w :
  truthy (cache_lookup w "products") = false ->
  (forall c, pl c = None) ->
  In (CacheSetex "products" 120 (json_dumps (select_products py_float (table w))), true)
     (calls (run (get_products py_float) cfg pl w))
  /\ (forall d,
        cache_lookup (tick d (world_after (run (get_products py_float) cfg pl w))) "products"
        = if d <? 120 then Some (json_dumps (select_products py_float (table w))) else None)
  /\ forall cfg' pl' w' r key ttl v ok,
       In (CacheSetex key ttl v, ok) (calls (run (handle py_float r) cfg' pl' w')) ->
       ttl = 120.
Proof.
  intros Hmiss Hpl. rewrite (get_products_miss cfg pl w Hmiss Hpl).
  cbn [calls world_after fst snd]. split; [simpl; tauto|]. split.
  - intros d. apply cache_lookup_after_setex.
  - intros cfg' pl' w' r key ttl v ok Hin.
    apply (setex_is_120 cfg' pl' w' r key ttl v ok Hin).
Qed.

(** C3, amended (cache failures).  A cache write or a cache delete
    that raises is not swallowed: the handler answers with an error
    that carries the message of the cache, and leaves the cache as it
    was.  What the run did to the table is what it would have done with
    a cache that never fails, so a mutation that was committed stays
    committed.  In a run in which no cache call raises, everything is
    as with a cache that never fails. *)
Theorem cache_failure_is_an_error cfg pl w r :
  (forall c, is_cache_write c = true ->
     In (c, false) (calls (run (handle py_float r) cfg pl w)) ->
     exists e, pl c = Some e
       /\ outcome (run (handle py_float r) cfg pl w) = Ok (ServerError e)
       /\ cache (world_after (run (handle py_float r) cfg pl w)) = cache w)
  /\ table (world_after (run (handle py_float r) cfg pl w))
     = table (world_after (run (handle py_float r) cfg (without_cache_faults pl) w))
  /\ ((forall c, is_cache_call c = true ->
         ~ In (c, false) (calls (run (handle py_float r) cfg pl w))) ->
      run (handle py_float r) cfg pl w
      = run (handle py_float r) cfg (without_cache_faults pl) w).
Proof.
  split; [|split].
  - intros c. apply cache_write_fault_is_error.
  - apply cache_faults_spare_store.
  - apply no_cache_fault_same_run.
Qed.

(** C8, amended (the new id).  In a create the id is read from the
    cursor before the commit is asked for.  It is handed to the caller
    only when the commit has returned: it is then the id the store
    drew, and the row with this id is in the table.  When no commit has
    returned the answer is an error and the table is as before. *)
Theorem new_id_is_returned_after_commit cfg pl w n p :
  always_preceded is_fetch_id is_commit (calls (run (add_product n p) cfg pl w)) = true
  /\ (forall i,
        outcome (run (add_product n p) cfg pl w) = Ok (ProductAdded i) ->
        i = next_id w
        /\ In (Commit, true) (calls (run (add_product n p) cfg pl w))
        /\ table (world_after (run (add_product n p) cfg pl w)) = table w ++ [Row i n p])
  /\ (~ In (Commit, true) (calls (run (add_product n p) cfg pl w)) ->
      (exists e, outcome (run (add_product n p) cfg pl w) = Ok (ServerError e))
      /\ table (world_after (run (add_product n p) cfg pl w)) = table w).
Proof.
  split; [apply fetch_precedes_commit|]. split.
  - intros i. apply add_product_returns_committed.
  - apply add_product_not_committed.
Qed.

(** C10 (store failure).  When a call to the store raises during a
    mutation, the answer is an error with the message of that call, the
    cache is exactly as it was, and no cache delete is made.  A cache
    delete is made only after every call to the store has returned. *)
Theorem store_failure_keeps_cache cfg pl w r :
  is_mutation r = true ->
  (forall c, is_cache_call c = false ->
     In (c, false) (calls (run (handle py_float r) cfg pl w)) ->
     (exists e, pl c = Some e
                /\ outcome (run (handle py_float r) cfg pl w) = Ok (ServerError e))
     /\ cache (world_after (run (handle py_float r) cfg pl w)) = cache w
     /\ forall x, is_cache_delete x = true ->
                  ~ In x (calls (run (handle py_float r) cfg pl w)))
  /\ (forall x, is_cache_delete x = true ->
        In x (calls (run (handle py_float r) cfg pl w)) ->
        calls (run (handle py_float r) cfg pl w)
        = map (fun c => (c, true)) (store_script cfg r) ++ [x]).
Proof.
  intros Hr. split.
  - intros c. apply store_failure_no_delete. exact Hr.
  - intros x Hx Hin.
    destruct (delete_only_after_all cfg pl w r x Hr Hx Hin) as (ok & _ & Hcalls).
    exact Hcalls.
Qed.


(** *** Beyond the claims: what a run never does *)

(** X1 (fail fast).  In every run each call but the last has returned:
    a call that raises ends the run, nothing is tried again, and no
    call is made twice. *)
Theorem failed_call_ends_run cfg pl w r :
  all_but_last_returned (calls (run (handle py_float r) cfg pl w))
  /\ List.NoDup (map fst (calls (run (handle py_float r) cfg pl w))).
Proof.
  unfold all_but_last_returned.
  destruct r as [|n p|i n p|i]; exec;
    (split;
     [cbn [removelast]; repeat constructor
     |cbn [map]; repeat (apply List.NoDup_cons; [simpl; intuition discriminate|]);
      apply List.NoDup_nil]).
Qed.


Lemma some_row_matches (i : Z) (rows : list (@row numeric)) :
  (Z.of_nat (length (filter (fun y : row => matches i y = true) rows)) =? 0) = true ->
  forall x, In x rows -> row_id x <> i.
Proof.
  intros Hlen x Hx Hid. apply Z.eqb_eq in Hlen.
  assert (Hin : x ∈ filter (fun y : row => matches i y = true) rows).
  { apply list_elem_of_filter. split; [|apply list_elem_of_In; exact Hx].
    unfold matches. apply Z.eqb_eq. exact Hid. }
  destruct (filter _ rows); [inversion Hin|simpl in Hlen; lia].
Qed.

(** X3 (not found).  The not-found reply is given only to an update or
    a delete aimed at an id that no row of the table has, and the
    world is then as before. *)
Theorem not_found_only_if_missing cfg pl w r :
  outcome (run (handle py_float r) cfg pl w) = Ok NotFound ->
  exists i, target_id r = Some i
            /\ (forall x, In x (table w) -> row_id x <> i)
            /\ world_after (run (handle py_float r) cfg pl w) = w.
Proof.
  destruct r as [|n p|i n p|i]; exec; intros [=]; exists i;
    (split; [reflexivity|split; [|reflexivity]]);
    apply some_row_matches; assumption.
Qed.

(** X4 (commit decides).  The table after a run is what the mutation
    makes of it when a commit has returned, whatever happens later in
    the run, and is the table as it was otherwise.  A run that answers
    with success has committed; a read never changes the table. *)
Theorem table_changes_on_commit cfg pl w r :
  (In (Commit, true) (calls (run (handle py_float r) cfg pl w)) ->
   table (world_after (run (handle py_float r) cfg pl w)) = committed_rows r w)
  /\ (~ In (Commit, true) (calls (run (handle py_float r) cfg pl w)) ->
      table (world_after (run (handle py_float r) cfg pl w)) = table w)
  /\ (forall resp,
        outcome (run (handle py_float r) cfg pl w) = Ok resp -> is_success resp = true ->
        In (Commit, true) (calls (run (handle py_float r) cfg pl w)))
  /\ (r = GetProducts ->
      table (world_after (run (handle py_float r) cfg pl w)) = table w
      /\ next_id (world_after (run (handle py_float r) cfg pl w)) = next_id w).
Proof.
  destruct r as [|n p|i n p|i]; exec;
    (split; [intros Hin; split_in; reflexivity|]);
    (split; [intros Hno; try reflexivity; destruct Hno; simpl; tauto|]);
    (split; [intros resp [= <-] Hok; try discriminate Hok; simpl; tauto|]);
    intros Hr; try discriminate Hr; split; reflexivity.
Qed.

(** X5 (cache footprint).  A run touches no key of the cache but
    ["products"]; a mutation never reads the cache and never writes a
    value into it, and a read never deletes from it. *)
Theorem only_the_products_key cfg pl w r :
  (forall key, key <> "products" ->
     cache (world_after (run (handle py_float r) cfg pl w)) !! key = cache w !! key)
  /\ (forall c ok, In (c, ok) (calls (run (handle py_float r) cfg pl w)) ->
        is_cache_call c = true ->
        if is_mutation r then c = CacheDelete "products"
        else c = CacheGet "products" \/ exists v, c = CacheSetex "products" 120 v).
Proof.
  destruct r as [|n p|i n p|i]; exec;
    (split; [intros k Hk; rewrite ?lookup_insert_ne, ?lookup_delete_ne by congruence;
             reflexivity|]);
    intros c ok Hin Hc; split_in; try discriminate Hc; cbn [is_mutation]; eauto.
Qed.


(** X7 (miss with the store down).  On a miss, when a store call raises
    the read answers with an error that carries the message of that
    call, and the key is left unset: nothing is written to the cache. *)
Theorem miss_with_store_down cfg pl w c :
  truthy (cache_lookup w "products") = false ->
  is_cache_call c = false ->
  In (c, false) (calls (run (get_products py_float) cfg pl w)) ->
  (exists e, pl c = Some e
             /\ outcome (run (get_products py_float) cfg pl w) = Ok (ServerError e))
  /\ world_after (run (get_products py_float) cfg pl w) = w.
Proof.
  intros Hmiss Hc. step_run. ask_plan; [intros Hin; split_in; discriminate Hc|].
  rewrite Hmiss. repeat ask_plan; intros Hin; split_in; try discriminate Hc; eauto.
Qed.

(** *** Beyond the claims: how requests compose *)

(** X8 (time to live).  A list written on a miss is forgotten 120
    seconds later, and reads answered from it in between do not keep
    it: after a hit at [d1 < 120], a read at [d1 + d2 >= 120] is a
    miss, and what it returns is read from the table. *)
Theorem ttl_self_healing cfg pl pl1 pl2 w d1 d2 source data :
  truthy (cache_lookup w "products") = false ->
  (forall c, pl c = None) ->
  0 <= d1 < 120 -> 120 <= d1 + d2 ->
  pl1 (CacheGet "products") = None ->
  outcome
    (run (get_products py_float) cfg pl2
       (tick d2
          (world_after
             (run (get_products py_float) cfg pl1
                (tick d1 (world_after (run (get_products py_float) cfg pl w)))))))
  = Ok (Products source data) ->
  source = database_source
  /\ data = PyProducts (select_products py_float (table w)).
Proof.
  intros Hmiss Hpl Hd1 Hd Hpl1.
  rewrite (get_products_miss cfg pl w Hmiss Hpl). cbn [world_after fst snd].
  pose proof (cache_lookup_after_setex w "products"
                (json_dumps (select_products py_float (table w))) 120 d1) as Hlook.
  destruct (d1 <? 120) eqn:Hlt; [|apply Z.ltb_ge in Hlt; lia].
  rewrite (get_products_hit cfg pl1); [|rewrite Hlook; reflexivity|exact Hpl1].
  cbn [world_after fst snd].
  intros Hread. apply get_products_miss_source in Hread; [exact Hread|].
  unfold cache_lookup, tick. cbn [cache now]. rewrite lookup_insert_eq.
  destruct (now w + d1 + d2 <? now w + 120) eqn:Hnow; [|reflexivity].
  apply Z.ltb_lt in Hnow. lia.
Qed.

Lemma failed_after_commit cfg pl w r c :
  In (Commit, true) (calls (run (handle py_float r) cfg pl w)) ->
  In (c, false) (calls (run (handle py_float r) cfg pl w)) ->
  (exists e, pl c = Some e
             /\ outcome (run (handle py_float r) cfg pl w) = Ok (ServerError e))
  /\ table (world_after (run (handle py_float r) cfg pl w)) = committed_rows r w
  /\ cache (world_after (run (handle py_float r) cfg pl w)) = cache w
  /\ now (world_after (run (handle py_float r) cfg pl w)) = now w.
Proof.
  destruct r as [|n p|i n p|i]; exec; intros Hc Hin; split_in; eauto 6.
Qed.

(** X9 (stale list).  When a mutation has committed and a later call of
    the same request raises (closing the cursor or the connection, or
    the cache delete), the answer is an error although the table has
    changed, and the cache is left as it was: a read that was answered
    from the cache before is still answered from it, with the list from
    before the mutation. *)
Theorem committed_then_failed_leaves_stale_list cfg pl pl' w r c :
  In (Commit, true) (calls (run (handle py_float r) cfg pl w)) ->
  In (c, false) (calls (run (handle py_float r) cfg pl w)) ->
  (exists e, outcome (run (handle py_float r) cfg pl w) = Ok (ServerError e))
  /\ table (world_after (run (handle py_float r) cfg pl w)) = committed_rows r w
  /\ cache (world_after (run (handle py_float r) cfg pl w)) = cache w
  /\ (truthy (cache_lookup w "products") = true ->
      pl' (CacheGet "products") = None ->
      outcome (run (get_products py_float) cfg pl'
                   (world_after (run (handle py_float r) cfg pl w)))
      = Ok (Products cache_source (json_loads (the_str (cache_lookup w "products"))))).
Proof.
  intros Hc Hf.
  destruct (failed_after_commit cfg pl w r c Hc Hf) as ((e & _ & Hout) & Ht & Hcache & Hnow).
  split; [eauto|]. split; [exact Ht|]. split; [exact Hcache|].
  intros Hhit Hpl'.
  assert (Hsame : cache_lookup (world_after (run (handle py_float r) cfg pl w)) "products"
                  = cache_lookup w "products")
    by (unfold cache_lookup; rewrite Hcache, Hnow; reflexivity).
  rewrite get_products_hit; [rewrite Hsame; reflexivity|rewrite Hsame; exact Hhit|exact Hpl'].
Qed.




(** *** Beyond the claims: reading after writing *)

Lemma in_select_products (rows : list (@row numeric)) (q : product) :
  In q (select_products py_float rows) <->
  exists x, In x rows /\ q = Product (row_id x) (row_name x) (py_float (row_price x)).
Proof.
  unfold select_products. rewrite in_map_iff. split; intros (x & H1 & H2).
  - exists x. split; [|congruence].
    apply (Permutation_in x (order_by_id_perm rows)). exact H2.
  - exists x. split; [congruence|].
    apply (Permutation_in x (Permutation_sym (order_by_id_perm rows))). exact H1.
Qed.



Lemma a_row_matches (i : Z) (rows : list (@row numeric)) :
  (Z.of_nat (length (filter (fun y : row => matches i y = true) rows)) =? 0) = false ->
  exists x, In x rows /\ row_id x = i.
Proof.
  intros Hlen. destruct (filter _ rows) as [|x l] eqn:Hf; [discriminate Hlen|].
  assert (Hx : x ∈ filter (fun y : row => matches i y = true) rows)
    by (rewrite Hf; left).
  apply list_elem_of_filter in Hx as [Hm Hx]. exists x.
  split; [apply list_elem_of_In; exact Hx|]. apply Z.eqb_eq. exact Hm.
Qed.

(** What a mutation that answers with success has done. *)
Lemma success_effect cfg pl w r resp :
  outcome (run (handle py_float r) cfg pl w) = Ok resp ->
  is_success resp = true ->
  table (world_after (run (handle py_float r) cfg pl w)) = committed_rows r w
  /\ cache (world_after (run (handle py_float r) cfg pl w)) !! "products" = None
  /\ match r with
     | GetProducts => False
     | AddProduct _ _ => resp = ProductAdded (next_id w)
     | UpdateProduct i _ _ =>
         resp = ProductUpdated i /\ exists x, In x (table w) /\ row_id x = i
     | DeleteProduct i =>
         resp = ProductDeleted i /\ exists x, In x (table w) /\ row_id x = i
     end.
Proof.
  destruct r as [|n p|i n p|i]; exec; intros [= <-] Hok; try discriminate Hok;
    (split; [reflexivity|split; [apply lookup_delete_eq|]]);
    try reflexivity; (split; [reflexivity|apply a_row_matches; assumption]).
Qed.

(** The read that follows a mutation answered with success, when its
    calls return: it is a miss, and it lists the committed table. *)
Lemma read_after_success cfg pl pl' w r resp d :
  outcome (run (handle py_float r) cfg pl w) = Ok resp ->
  is_success resp = true ->
  (forall c, pl' c = None) ->
  outcome (run (get_products py_float) cfg pl'
               (tick d (world_after (run (handle py_float r) cfg pl w))))
  = Ok (Products database_source
          (PyProducts (select_products py_float (committed_rows r w)))).
Proof.
  intros Hout Hok Hpl'.
  destruct (success_effect cfg pl w r resp Hout Hok) as (Ht & Hkey & _).
  rewrite get_products_miss; [|rewrite cache_lookup_tick by exact Hkey; reflexivity|exact Hpl'].
  cbn [outcome fst snd tick table]. rewrite Ht. reflexivity.
Qed.


(** X12 (delete, then read).  After a delete of the id [i] answered with
    success, the next read whose calls return lists no product with
    that id, and lists the products with another id exactly as
    before. *)
Theorem deleted_product_is_not_listed cfg pl pl' w i resp d :
  outcome (run (handle py_float (DeleteProduct i)) cfg pl w) = Ok resp ->
  is_success resp = true ->
  (forall c, pl' c = None) ->
  exists l,
    outcome (run (get_products py_float) cfg pl'
                 (tick d (world_after (run (handle py_float (DeleteProduct i)) cfg pl w))))
    = Ok (Products database_source (PyProducts l))
    /\ (exists q, In q (select_products py_float (table w)) /\ prod_id q = i)
    /\ (forall q, In q l -> prod_id q <> i)
    /\ (forall q, prod_id q <> i ->
                  (In q l <-> In q (select_products py_float (table w)))).
Proof.
  intros Hout Hok Hpl'.
  destruct (success_effect cfg pl w _ _ Hout Hok) as (_ & _ & _ & x & Hx & Hxi).
  eexists. split; [apply (read_after_success cfg pl pl' w _ _ d Hout Hok Hpl')|].
  cbn [committed_rows]. split; [|split].
  - eexists. split; [apply in_select_products; exists x; split; [exact Hx|reflexivity]|].
    exact Hxi.
  - intros q (y & Hy & ->)%in_select_products. cbn [prod_id].
    apply list_elem_of_In, list_elem_of_filter in Hy as [Hm _].
    unfold matches in Hm. apply Z.eqb_neq. exact Hm.
  - intros q Hq. rewrite !in_select_products. split; intros (y & Hy & ->); exists y;
      (split; [|reflexivity]).
    + apply list_elem_of_In, list_elem_of_filter in Hy as [_ Hy].
      apply list_elem_of_In. exact Hy.
    + apply list_elem_of_In, list_elem_of_filter. split; [|apply list_elem_of_In; exact Hy].
      unfold matches. apply Z.eqb_neq. exact Hq.
Qed.


(** X14 (mutations do not look at the cache).  What a create, an update
    or a delete answers, the calls it makes and the table it leaves
    depend on the table and on the plan only, not on what the cache
    holds or on the time: deleting a key that is not set is no
    error. *)
Theorem mutation_ignores_cache cfg pl w w' r :
  is_mutation r = true ->
  table w = table w' ->
  next_id w = next_id w' ->
  outcome (run (handle py_float r) cfg pl w) = outcome (run (handle py_float r) cfg pl w')
  /\ calls (run (handle py_float r) cfg pl w) = calls (run (handle py_float r) cfg pl w')
  /\ table (world_after (run (handle py_float r) cfg pl w))
     = table (world_after (run (handle py_float r) cfg pl w')).
Proof.
  destruct w as [t i c n], w' as [t' i' c' n']. cbn [table next_id].
  intros Hr <- <-.
  destruct r as [|nm p|j nm p|j]; [discriminate Hr| | |]; exec; repeat split.
Qed.

End Handlers.

(** ** The claim about secrets *)

(** C9 (resolution of a secret).  When the variable named after the
    option with [_FILE] appended is set to a path that exists and can
    be read, the value is the content of the file with the white space
    at both ends removed.  When that variable is not set, or is set to
    a path that does not exist, the value is that of the variable named
    after the option when it is set, and the default otherwise.  The
    three options resolved in this way, and their defaults, are the
    database name ([ecommerce]), user ([ecomuser]) and password
    ([securepassword123]). *)
Theorem secret_resolution (o : os) (env_var : string) (default : option string) :
  (forall path c,
     environ o !! (env_var +:+ "_FILE") = Some path ->
     path_exists o path = true ->
     files o !! path = Some (File c) ->
     get_secret o env_var default = Ok (Some (strip c)))
  /\ ((environ o !! (env_var +:+ "_FILE") = None
       \/ exists path, environ o !! (env_var +:+ "_FILE") = Some path
                       /\ path_exists o path = false) ->
      (forall x, environ o !! env_var = Some x ->
                 get_secret o env_var default = Ok (Some x))
      /\ (environ o !! env_var = None -> get_secret o env_var default = Ok default))
  /\ (forall cfg, load_config o = Ok cfg ->
        get_secret o "DB_NAME" (Some "ecommerce") = Ok (DB_NAME cfg)
        /\ get_secret o "DB_USER" (Some "ecomuser") = Ok (DB_USER cfg)
        /\ get_secret o "DB_PASSWORD" (Some "securepassword123") = Ok (DB_PASSWORD cfg)).
Proof.
  split; [|split].
  - intros path c. apply get_secret_from_file.
  - intros Hfile. rewrite (get_secret_from_env o env_var default Hfile).
    unfold getenv. split; [intros x ->|intros ->]; reflexivity.
  - apply load_config_secrets.
Qed.

(** ** The claims at work on the sample data *)

Lemma secret_resolution_witness :
  get_secret secret_os "DB_PASSWORD" (Some "securepassword123") = Ok (Some "s3cret")
  /\ get_secret secret_os "DB_USER" (Some "ecomuser") = Ok (Some "shop")
  /\ get_secret secret_os "DB_NAME" (Some "ecommerce") = Ok (Some "ecommerce").
Proof.
  split; [|split].
  - apply (proj1 (secret_resolution secret_os "DB_PASSWORD" (Some "securepassword123"))
             "/run/secrets/db_password" ("s3cret" +:+ String "010"%char EmptyString));
      vm_compute; reflexivity.
  - apply (proj1 (proj1 (proj2 (secret_resolution secret_os "DB_USER" (Some "ecomuser")))
                    (or_introl eq_refl))).
    vm_compute; reflexivity.
  - apply (proj2 (proj1 (proj2 (secret_resolution secret_os "DB_NAME" (Some "ecommerce")))
                    (or_introl eq_refl))).
    vm_compute; reflexivity.
Defined.

(** The end-to-end scenario: the list is cached, a product is added,
    and the next read, 500 seconds or 1 second later alike, comes from
    the store with both products. *)
Lemma invalidation_on_write_witness :
  outcome (run (get_products (fun x => x)) no_config no_faults
             (tick 1 (world_after (run (handle (fun x => x) (AddProduct "B" price_20))
                                       no_config no_faults world_A_cached))))
  = Ok (Products database_source
          (PyProducts [Product 1 "A" price_10; Product 2 "B" price_20])).
Proof.
  destruct (invalidation_on_write (fun x => x) no_config no_faults world_A_cached
              (AddProduct "B" price_20) (ProductAdded 2)
              eq_refl ltac:(vm_compute; reflexivity) eq_refl) as (_ & _ & H).
  exact (proj2 (H 1 no_faults) (fun _ => eq_refl)).
Defined.

Lemma commit_before_invalidation_witness :
  always_preceded is_commit_ok is_cache_delete
    (calls (run (handle (fun x => x) (DeleteProduct 1)) no_config delete_down world_A_cached))
  = true.
Proof.
  exact (proj1 (commit_before_invalidation (fun x => x) no_config delete_down world_A_cached
                  (DeleteProduct 1) eq_refl)).
Defined.

Lemma not_found_does_not_invalidate_witness :
  outcome (run (handle (fun x => x) (UpdateProduct 7 "Z" price_20))
               no_config no_faults world_A_cached) = Ok NotFound
  /\ outcome (run (get_products (fun x => x)) no_config no_faults
                (world_after (run (handle (fun x => x) (UpdateProduct 7 "Z" price_20))
                                  no_config no_faults world_A_cached)))
     = Ok (Products cache_source (PyProducts [Product 1 "A" price_10])).
Proof.
  destruct (not_found_does_not_invalidate (fun x => x) no_config no_faults world_A_cached
              (UpdateProduct 7 "Z" price_20) 7 eq_refl) as (_ & _ & _ & Hnf & Hread).
  - intros x Hx. vm_compute in Hx. destruct Hx as [<-|[]]. discriminate.
  - split.
    + apply Hnf. intros c _. reflexivity.
    + rewrite (Hread no_faults); [vm_compute; reflexivity|vm_compute; reflexivity|reflexivity].
Defined.

Lemma cache_population_on_miss_witness :
  outcome (run (get_products (fun x => x)) no_config no_faults world_A)
  = Ok (Products database_source (PyProducts [Product 1 "A" price_10]))
  /\ outcome (run (get_products (fun x => x)) no_config no_faults (tick 119 world_A_cached))
     = Ok (Products cache_source (PyProducts [Product 1 "A" price_10])).
Proof.
  destruct (cache_population_on_miss (fun x => x) no_config no_faults no_faults world_A 119
              eq_refl (fun _ => eq_refl) eq_refl ltac:(lia)) as (H1 & _ & _ & H2).
  split; [exact H1|].
  unfold world_A_cached. rewrite H2. reflexivity.
Defined.



Lemma ttl_is_120_witness :
  cache_lookup (tick 119 world_A_cached) "products"
  = Some (json_dumps [Product 1 "A" price_10])
  /\ cache_lookup (tick 120 world_A_cached) "products" = None.
Proof.
  destruct (ttl_is_120 (fun x => x) no_config no_faults world_A eq_refl (fun _ => eq_refl))
    as (_ & H & _).
  split; [exact (H 119)|exact (H 120)].
Defined.

Lemma store_failure_keeps_cache_witness :
  outcome (run (handle (fun x => x) (AddProduct "B" price_20))
               no_config commit_down world_A_cached)
  = Ok (ServerError "server closed the connection")
  /\ cache (world_after (run (handle (fun x => x) (AddProduct "B" price_20))
                             no_config commit_down world_A_cached))
     = cache world_A_cached.
Proof.
  destruct (proj1 (store_failure_keeps_cache (fun x => x) no_config commit_down
                     world_A_cached (AddProduct "B" price_20) eq_refl)
                  Commit eq_refl) as ((e & He & Hout) & Hcache & _).
  - vm_compute. tauto.
  - split; [|exact Hcache]. rewrite Hout. injection He as <-. reflexivity.
Defined.

(** C3 as stated fails: the table can be read, the cache cannot be
    written, and the read answers with an error instead of the list;
    a product is added and committed, the cache cannot be reached, and
    the create answers with an error. *)
Lemma cache_failure_changes_outcome :
  outcome (run (get_products (fun x => x)) no_config setex_down world_A)
  <> outcome (run (get_products (fun x => x)) no_config
                (without_cache_faults setex_down) world_A)
  /\ outcome (run (get_products (fun x => x)) no_config setex_down world_A)
     = Ok (ServerError "Connection refused")
  /\ outcome (run (get_products (fun x => x)) no_config
                (without_cache_faults setex_down) world_A)
     = Ok (Products database_source (PyProducts [Product 1 "A" price_10]))
  /\ outcome (run (add_product "B" price_20) no_config delete_down world_A)
     = Ok (ServerError "Connection refused")
  /\ table (world_after (run (add_product "B" price_20) no_config delete_down world_A))
     = [Row 1 "A" price_10; Row 2 "B" price_20].
Proof. vm_compute. repeat split. discriminate. Qed.

Lemma cache_failure_is_an_error_witness :
  outcome (run (handle (fun x => x) (AddProduct "B" price_20))
               no_config delete_down world_A_cached)
  = Ok (ServerError "Connection refused")
  /\ cache (world_after (run (handle (fun x => x) (AddProduct "B" price_20))
                             no_config delete_down world_A_cached))
     = cache world_A_cached.
Proof.
  destruct (proj1 (cache_failure_is_an_error (fun x => x) no_config delete_down
                     world_A_cached (AddProduct "B" price_20))
                  (CacheDelete "products") eq_refl) as (e & He & Hout & Hcache).
  - vm_compute. tauto.
  - split; [|exact Hcache]. rewrite Hout. injection He as <-. reflexivity.
Defined.

(** Two environments, one of them with a would-be option for the time
    to live: both load, and both reads write the list for 120 seconds. *)
Example ttl_under_two_environments :
  exists cfg1 cfg2,
    load_config plain_os = Ok cfg1 /\ load_config other_os = Ok cfg2
    /\ cfg1 <> cfg2
    /\ last (calls (run (get_products (fun x => x)) cfg1 no_faults world_A))
       = Some (CacheSetex "products" 120 (json_dumps [Product 1 "A" price_10]), true)
    /\ last (calls (run (get_products (fun x => x)) cfg2 no_faults world_A))
       = Some (CacheSetex "products" 120 (json_dumps [Product 1 "A" price_10]), true).
Proof.
  eexists. eexists. split; [vm_compute; reflexivity|]. split; [vm_compute; reflexivity|].
  split; [discriminate|]. split; vm_compute; reflexivity.
Qed.

(** C7 as stated fails: no two configurations loaded from whatever
    environments give two different times to live. *)
Lemma ttl_is_not_configurable :
  ~ exists (o1 o2 : os) (cfg1 cfg2 : config) (pl1 pl2 : @plan pyfloat) (w1 w2 : world)
           (key1 key2 v1 v2 : string) (ttl1 ttl2 : Z) (ok1 ok2 : bool),
      load_config o1 = Ok cfg1 /\ load_config o2 = Ok cfg2
      /\ In (CacheSetex key1 ttl1 v1, ok1)
            (calls (run (get_products (fun x => x)) cfg1 pl1 w1))
      /\ In (CacheSetex key2 ttl2 v2, ok2)
            (calls (run (get_products (fun x => x)) cfg2 pl2 w2))
      /\ ttl1 <> ttl2.
Proof.
  intros (o1 & o2 & cfg1 & cfg2 & pl1 & pl2 & w1 & w2 & key1 & key2 & v1 & v2
          & ttl1 & ttl2 & ok1 & ok2 & _ & _ & H1 & H2 & Hne).
  apply Hne.
  destruct (setex_is_120 (fun x => x) cfg1 pl1 w1 GetProducts key1 ttl1 v1 ok1 H1) as [_ ->].
  destruct (setex_is_120 (fun x => x) cfg2 pl2 w2 GetProducts key2 ttl2 v2 ok2 H2) as [_ ->].
  reflexivity.
Qed.

(** C8 as stated fails: in a create the id is fetched before any
    commit; and when the commit then raises, the id has been read from
    the store although the row was never made durable. *)
Lemma new_id_is_read_before_commit :
  always_preceded is_commit_ok is_fetch_id
    (calls (run (add_product "B" price_20) no_config no_faults world_A)) = false
  /\ calls (run (add_product "B" price_20) no_config commit_down world_A)
     = [(Connect no_config, true); (Cursor, true);
        (Execute (Insert "B" price_20), true); (Fetchone, true); (Commit, false)]
  /\ table (world_after (run (add_product "B" price_20) no_config commit_down world_A))
     = table world_A.
Proof. vm_compute. repeat split. Qed.

Lemma new_id_is_returned_after_commit_witness :
  In (Commit, true) (calls (run (add_product "B" price_20) no_config no_faults world_A))
  /\ table (world_after (run (add_product "B" price_20) no_config no_faults world_A))
     = table world_A ++ [Row 2 "B" price_20].
Proof.
  destruct (proj1 (proj2 (new_id_is_returned_after_commit no_config no_faults world_A
                            "B" price_20)) 2 ltac:(vm_compute; reflexivity))
    as (_ & Hc & Ht).
  split; [exact Hc|exact Ht].
Defined.

(** ** The further properties at work on the sample data *)


Lemma not_found_only_if_missing_witness :
  exists i, target_id (UpdateProduct 7 "Z" price_20) = Some i
            /\ (forall x, In x (table world_A) -> row_id x <> i)
            /\ world_after (run (handle (fun x => x) (UpdateProduct 7 "Z" price_20))
                                no_config no_faults world_A) = world_A.
Proof.
  apply (not_found_only_if_missing (fun x => x) no_config no_faults world_A
           (UpdateProduct 7 "Z" price_20)).
  vm_compute. reflexivity.
Defined.


Lemma miss_with_store_down_witness :
  outcome (run (get_products (fun x => x)) no_config all_store_down world_A)
  = Ok (ServerError "could not connect to server")
  /\ world_after (run (get_products (fun x => x)) no_config all_store_down world_A)
     = world_A.
Proof.
  destruct (miss_with_store_down (fun x => x) no_config all_store_down world_A
              (Connect no_config) eq_refl eq_refl) as ((e & He & Hout) & Hw).
  - vm_compute. tauto.
  - split; [|exact Hw]. rewrite Hout. injection He as <-. reflexivity.
Defined.

Lemma ttl_self_healing_witness :
  database_source = database_source
  /\ PyProducts [Product 1 "A" price_10]
     = PyProducts (select_products (fun x => x) (table world_A)).
Proof.
  apply (ttl_self_healing (fun x => x) no_config no_faults no_faults no_faults world_A
           100 20 database_source (PyProducts [Product 1 "A" price_10])
           eq_refl (fun _ => eq_refl) ltac:(lia) ltac:(lia) eq_refl).
  vm_compute. reflexivity.
Defined.

Lemma committed_then_failed_leaves_stale_list_witness :
  table (world_after (run (handle (fun x => x) (AddProduct "B" price_20))
                          no_config close_down world_A_cached))
  = [Row 1 "A" price_10; Row 2 "B" price_20]
  /\ outcome (run (get_products (fun x => x)) no_config no_faults
                (world_after (run (handle (fun x => x) (AddProduct "B" price_20))
                                  no_config close_down world_A_cached)))
     = Ok (Products cache_source (PyProducts [Product 1 "A" price_10])).
Proof.
  destruct (committed_then_failed_leaves_stale_list (fun x => x) no_config close_down
              no_faults world_A_cached (AddProduct "B" price_20) Close)
    as (_ & Ht & _ & Hread); [vm_compute; tauto|vm_compute; tauto|].
  split; [rewrite Ht; vm_compute; reflexivity|].
  rewrite Hread; [vm_compute; reflexivity|vm_compute; reflexivity|reflexivity].
Defined.




Lemma deleted_product_is_not_listed_witness :
  exists l,
    outcome (run (get_products (fun x => x)) no_config no_faults
               (tick 5 (world_after (run (handle (fun x => x) (DeleteProduct 1))
                                         no_config no_faults world_A_cached))))
    = Ok (Products database_source (PyProducts l))
    /\ forall q, In q l -> prod_id q <> 1.
Proof.
  destruct (deleted_product_is_not_listed (fun x => x) no_config no_faults no_faults
              world_A_cached 1 (ProductDeleted 1) 5 ltac:(vm_compute; reflexivity)
              eq_refl (fun _ => eq_refl)) as (l & H1 & _ & H2 & _).
  exists l. split; assumption.
Defined.


Lemma health_check_first_failure_witness :
  health_check no_config store_down
  = (unhealthy "could not connect to server", [(ProbeConnect no_config, false)])
  /\ health_check no_config cache_down
     = (unhealthy "Connection refused",
        [(ProbeConnect no_config, true); (ProbeCursor, true); (ProbeSelect1, true);
         (ProbeCursorClose, true); (ProbeClose, true); (ProbePing, false)]).
Proof.
  split.
  - apply (health_check_first_failure no_config store_down []
             [ProbeCursor; ProbeSelect1; ProbeCursorClose; ProbeClose; ProbePing]
             (ProbeConnect no_config) "could not connect to server" eq_refl).
    + intros x [].
    + reflexivity.
  - apply (health_check_first_failure no_config cache_down
             [ProbeConnect no_config; ProbeCursor; ProbeSelect1; ProbeCursorClose; ProbeClose]
             [] ProbePing "Connection refused" eq_refl).
    + intros x Hx. repeat (destruct Hx as [<-|Hx]; [reflexivity|]). destruct Hx.
    + reflexivity.
Defined.


Lemma secret_unreadable_raises_witness :
  (exists e, get_secret broken_os "DB_PASSWORD" (Some "securepassword123") = Raised e)
  /\ exists e, load_config broken_os = Raised e.
Proof.
  destruct (secret_unreadable_raises broken_os "DB_PASSWORD" "/run/secrets"
              (Some "securepassword123") eq_refl eq_refl eq_refl) as (H1 & H2).
  split; [exact H1|]. apply H2. auto.
Defined.


Lemma mutation_ignores_cache_witness :
  outcome (run (handle (fun x => x) (DeleteProduct 1)) no_config no_faults world_A)
  = outcome (run (handle (fun x => x) (DeleteProduct 1)) no_config no_faults world_A_cached).
Proof.
  apply (mutation_ignores_cache (fun x => x) no_config no_faults world_A world_A_cached
           (DeleteProduct 1) eq_refl eq_refl eq_refl).
Defined.
